(** * A shallow embedding of [ScheduleGenerator] (src/api/services/scheduler.py)

    Modelling choices:
    - Python ints are [Z]; money amounts and hourly rates (Python floats)
      are rationals [Q], the arithmetic of every expression is written in
      the operation order of the source.
    - A [datetime.time] is its count of microseconds since midnight ([Z]);
      [time(h, m)] raises [ValueError] unless [0 <= h <= 23] and
      [0 <= m <= 59].
    - A [datetime.date] is its proleptic ordinal ([date.toordinal()]), so
      [date.weekday()] is [(ordinal + 6) mod 7] and adding a [timedelta] of
      [n] days adds [n].  Date strings "YYYY-MM-DD" used as keys are the
      same dates, written by [strftime] and read back by [strptime].
    - The generator object together with the ambient clock ([date.today()])
      and the [uuid4] source form the state [gen]; [uuid4] draws a fresh
      identifier, modelled as the index of the draw.
    - Exceptions ([ValueError], [ZeroDivisionError], [KeyError]) end the
      computation and keep the state reached so far, as a raised exception
      leaves the mutated object behind.
    - An [Alert]'s message is an f-string of values all present in its
      [details] (or its type), so an alert is modelled by its type, its
      severity and its details. *)

From Stdlib Require Import ZArith QArith Qround String Ascii List Lia Sorted Permutation.
Import ListNotations.
Open Scope string_scope.
Open Scope list_scope.
Open Scope Z_scope.

(** ** Data model *)

Record employee := mkEmployee {
  emp_id : string;
  first_name : string;
  last_name : string;
  hourly_rate : Q;
  skills : list string
}.

Record availability_slot := mkSlot {
  slot_employee_id : string;
  day_of_week : Z;
  slot_start_time : Z;
  slot_end_time : Z;
  is_available : bool
}.

Record shift := mkShift {
  shift_id : N;
  shift_employee_id : string;
  shift_date : Z;
  start_time : Z;
  end_time : Z;
  break_minutes : Z;
  shift_hourly_rate : Q;
  total_cost : Q
}.

Inductive dval := DZ (z : Z) | DQ (q : Q) | DS (s : string).

Record alert := mkAlert {
  alert_type : string;
  severity : string;
  details : list (string * dval)
}.

(** One entry of the forecast cache: [{"demand": .., "confidence": ..}]. *)
Record fentry := mkFentry { f_demand : Q; f_confidence : Q }.

(** [forecast_cache]: week -> date -> hour -> entry, as insertion-ordered
    dicts (association lists with distinct keys). *)
Definition forecast_cache_t := list (string * list (Z * list (Z * fentry))).

Record gen := mkGen {
  weekly_budget : Q;
  min_staff_per_hour : Z;
  current_cost : Q;
  alerts : list alert;
  forecast_cache : forecast_cache_t;
  today : Z;
  uuid_next : N
}.

Definition set_cost (c : Q) (s : gen) : gen :=
  mkGen (weekly_budget s) (min_staff_per_hour s) c (alerts s)
        (forecast_cache s) (today s) (uuid_next s).
Definition set_alerts (l : list alert) (s : gen) : gen :=
  mkGen (weekly_budget s) (min_staff_per_hour s) (current_cost s) l
        (forecast_cache s) (today s) (uuid_next s).
Definition set_cache (c : forecast_cache_t) (s : gen) : gen :=
  mkGen (weekly_budget s) (min_staff_per_hour s) (current_cost s) (alerts s)
        c (today s) (uuid_next s).
Definition set_uuid (n : N) (s : gen) : gen :=
  mkGen (weekly_budget s) (min_staff_per_hour s) (current_cost s) (alerts s)
        (forecast_cache s) (today s) n.

(** [ScheduleGenerator.__init__]. *)
Definition init_gen (budget : Q) (min_staff : Z) (today0 : Z) (u : N) : gen :=
  mkGen budget min_staff 0%Q [] [] today0 u.

(** ** A state and exception monad *)

Inductive exn := ValueError | ZeroDivisionError | KeyError.

Inductive res (A : Type) :=
| Ok (a : A) (s : gen)
| Err (e : exn) (s : gen).
Arguments Ok {A} a s.
Arguments Err {A} e s.

Definition M (A : Type) := gen -> res A.

Definition ret {A} (a : A) : M A := fun s => Ok a s.
Definition bind {A B} (m : M A) (k : A -> M B) : M B :=
  fun s => match m s with Ok a s' => k a s' | Err e s' => Err e s' end.
Definition get : M gen := fun s => Ok s s.
Definition modify (f : gen -> gen) : M unit := fun s => Ok tt (f s).
Definition raise {A} (e : exn) : M A := fun s => Err e s.

Notation "x <- m ;; k" := (bind m (fun x => k))
  (at level 61, m at next level, right associativity).
Notation "m ;;; k" := (bind m (fun _ => k))
  (at level 61, right associativity).

Definition state_of {A} (r : res A) : gen :=
  match r with Ok _ s => s | Err _ s => s end.

(** A [for] loop threading an accumulator. *)
Fixpoint mfold {A B} (f : A -> B -> M A) (l : list B) (a : A) : M A :=
  match l with
  | [] => ret a
  | x :: xs => a' <- f a x ;; mfold f xs a'
  end.

Definition append_alert (a : alert) : M unit :=
  modify (fun s => set_alerts (alerts s ++ [a]) s).

(** [uuid.uuid4()]: a fresh identifier. *)
Definition uuid4 : M N :=
  fun s => Ok (uuid_next s) (set_uuid (N.succ (uuid_next s)) s).

(** ** Python helpers *)

Definition time_of (h m : Z) : Z := (h * 60 + m) * 60 * 1000000.

(** [datetime.time(h, m)]. *)
Definition py_time (h m : Z) : M Z :=
  if (0 <=? h) && (h <=? 23) && (0 <=? m) && (m <=? 59)
  then ret (time_of h m) else raise ValueError.

(** [range(a, a + n)]. *)
Fixpoint zseq (a : Z) (n : nat) : list Z :=
  match n with O => [] | S n' => a :: zseq (a + 1) n' end.

(** [range(a, b)]. *)
Definition py_range (a b : Z) : list Z := zseq a (Z.to_nat (b - a)).

(** [int(q)]: truncation toward zero. *)
Definition py_int (q : Q) : Z := Z.quot (Qnum q) (Zpos (Qden q)).

Definition qltb (x y : Q) : bool := negb (Qle_bool y x).

(** [list.sort]: Python's sort is stable and compares with [<]; on a total
    preorder every stable sort returns the same list, computed here by
    insertion (an element is placed before the first element it is not
    greater than, so earlier elements stay first among equals). *)
Fixpoint insert_by {A} (ltb : A -> A -> bool) (x : A) (l : list A) : list A :=
  match l with
  | [] => [x]
  | y :: ys => if ltb y x then y :: insert_by ltb x ys else x :: l
  end.

Fixpoint sort_by {A} (ltb : A -> A -> bool) (l : list A) : list A :=
  match l with
  | [] => []
  | x :: xs => insert_by ltb x (sort_by ltb xs)
  end.

Definition py_sort_ints (l : list Z) : list Z := sort_by Z.ltb l.

(** [l[:n]] *)
Definition py_slice_to {A} (l : list A) (n : Z) : list A :=
  if 0 <=? n then firstn (Z.to_nat n) l
  else firstn (Z.to_nat (Z.of_nat (length l) + n)) l.

(** ** [pick_employees_greedy] *)

(** The first slot of [availability_slots] matching the employee, the day
    and [is_available] (the inner loop [break]s on it). *)
Definition first_slot (eid : string) (target_day : Z)
    (slots : list availability_slot) : option availability_slot :=
  find (fun sl => String.eqb (slot_employee_id sl) eid
                  && Z.eqb (day_of_week sl) target_day
                  && is_available sl) slots.

(** Lines 234-241: the window test, with wrap-around for overnight slots. *)
Definition in_window (sl : availability_slot) (target_time : Z) : bool :=
  if slot_start_time sl <=? slot_end_time sl
  then (slot_start_time sl <=? target_time) && (target_time <=? slot_end_time sl)
  else (slot_start_time sl <=? target_time) || (target_time <=? slot_end_time sl).

(** One iteration of the outer [for emp in available_employees] loop. *)
Definition check_employee (slots : list availability_slot) (target_day target_hour : Z)
    (suitable : list (employee * Q)) (emp : employee) : M (list (employee * Q)) :=
  match first_slot (emp_id emp) target_day slots with
  | None => ret suitable
  | Some sl =>
      target_time <- py_time target_hour 0 ;;
      ret (if in_window sl target_time
           then suitable ++ [(emp, hourly_rate emp)] else suitable)
  end.

Definition rate_ltb (x y : employee * Q) : bool := qltb (snd x) (snd y).

Definition insufficient_alert (target_day target_hour selected required : Z) : alert :=
  mkAlert "insufficient_staff" "warning"
    [("day", DZ target_day); ("hour", DZ target_hour);
     ("available", DZ selected); ("required", DZ required)].

Definition pick_employees_greedy (available_employees : list employee)
    (availability_slots : list availability_slot) (required_count : Z)
    (target_day target_hour : Z) : M (list employee) :=
  suitable <- mfold (check_employee availability_slots target_day target_hour)
                    available_employees [] ;;
  let sorted := sort_by rate_ltb suitable in
  let selected_count := Z.min required_count (Z.of_nat (length sorted)) in
  (if selected_count <? required_count
   then append_alert (insufficient_alert target_day target_hour
                        selected_count required_count)
   else ret tt) ;;;
  ret (map fst (py_slice_to sorted selected_count)).

(** ** [_get_date_for_day] and [_create_shift] *)

Definition py_weekday (d : Z) : Z := (d + 6) mod 7.

Definition get_date_for_day (today0 day_of_week0 : Z) : Z :=
  let days_since_sunday := (py_weekday today0 + 1) mod 7 in
  let sunday := today0 - days_since_sunday in
  sunday + day_of_week0.

Definition budget_alert (cur cost budget : Q) : alert :=
  mkAlert "budget_exceeded" "critical"
    [("current_cost", DQ cur); ("shift_cost", DQ cost); ("budget", DQ budget)].

Definition shift_break (total_hours : Z) : Z := Z.max 0 ((total_hours - 4) * 15).

Definition shift_cost (total_hours : Z) (rate : Q) : Q :=
  let work_minutes := total_hours * 60 - shift_break total_hours in
  ((inject_Z work_minutes / inject_Z 60) * rate)%Q.

Definition create_shift (eid : string) (day start_hour : Z) (hours : list Z)
    (emp : employee) : M shift :=
  s0 <- get ;;
  let date0 := get_date_for_day (today s0) day in
  st <- py_time start_hour 0 ;;
  let end_hour := last hours 0 + 1 in
  et <- (if 24 <=? end_hour then py_time (end_hour - 24) 0 else py_time end_hour 0) ;;
  let total_hours := Z.of_nat (length hours) in
  let brk := Z.max 0 ((total_hours - 4) * 15) in
  let work_minutes := total_hours * 60 - brk in
  let cost := ((inject_Z work_minutes / inject_Z 60) * hourly_rate emp)%Q in
  s <- get ;;
  (if qltb (weekly_budget s) ((current_cost s + cost)%Q)
   then append_alert (budget_alert (current_cost s) cost (weekly_budget s))
   else ret tt) ;;;
  modify (fun s => set_cost ((current_cost s + cost)%Q) s) ;;;
  i <- uuid4 ;;
  ret (mkShift i eid date0 st et brk (hourly_rate emp) cost).

(** ** [merge_hours_to_shifts] *)

(** [{emp.id: emp for emp in employees}.get(emp_id)]: a later employee with
    the same id overrides an earlier one. *)
Definition employee_lookup (employees : list employee) (eid : string) : option employee :=
  find (fun e => String.eqb (emp_id e) eid) (rev employees).

(** Lines 277-281: [hours_by_day], days in order of first occurrence. *)
Fixpoint add_hour (d h : Z) (acc : list (Z * list Z)) : list (Z * list Z) :=
  match acc with
  | [] => [(d, [h])]
  | (d', hs) :: rest =>
      if Z.eqb d' d then (d', hs ++ [h]) :: rest else (d', hs) :: add_hour d h rest
  end.

Definition group_by_day (hours : list (Z * Z)) : list (Z * list Z) :=
  fold_left (fun acc dh => add_hour (fst dh) (snd dh) acc) hours [].

(** Lines 300-302: fill the gap up to [hour]. *)
Definition fill_step (c : list Z) (fill_hour : Z) : list Z :=
  if existsb (Z.eqb fill_hour) c then c else c ++ [fill_hour].

Definition fill_gap (current_range : list Z) (hour : Z) : list Z :=
  fold_left fill_step (py_range (last current_range 0 + 1) (hour + 1)) current_range.

(** One iteration of the loop of lines 296-306. *)
Definition range_step (acc : list (list Z) * list Z) (hour : Z)
    : list (list Z) * list Z :=
  let (continuous_ranges, current_range) := acc in
  if hour <=? last current_range 0 + 4
  then (continuous_ranges, fill_gap current_range hour)
  else (continuous_ranges ++ [current_range], [hour]).

(** Lines 293-310 on the sorted [day_hours]. *)
Definition continuous_ranges (day_hours : list Z) : list (list Z) :=
  match day_hours with
  | [] => []
  | h0 :: rest =>
      let (rs, cur) := fold_left range_step rest ([], [h0]) in
      match cur with [] => rs | _ => rs ++ [cur] end
  end.

(** The blocks built for one day: [day_hours] is sorted (twice, lines 285
    and 292) before the ranges are built. *)
Definition day_ranges (day_hours : list Z) : list (list Z) :=
  continuous_ranges (py_sort_ints (py_sort_ints day_hours)).

(** Lines 284-316: one day of one employee. *)
Definition merge_day (eid : string) (emp : employee) (acc : list shift)
    (entry : Z * list Z) : M (list shift) :=
  let (day, day_hours) := entry in
  match py_sort_ints day_hours with
  | [] => ret acc
  | _ =>
      mfold (fun acc hours_range =>
               if (1 <=? length hours_range)%nat
               then sh <- create_shift eid day (hd 0 hours_range) hours_range emp ;;
                    ret (acc ++ [sh])
               else ret acc)
            (day_ranges day_hours) acc
  end.

(** One iteration of [for emp_id, hours in employee_assignments.items()]. *)
Definition merge_entry (employees : list employee) (acc : list shift)
    (entry : string * list (Z * Z)) : M (list shift) :=
  let (eid, hours) := entry in
  match hours with
  | [] => ret acc
  | _ =>
      match employee_lookup employees eid with
      | None => ret acc
      | Some emp => mfold (merge_day eid emp) (group_by_day hours) acc
      end
  end.

Definition merge_hours_to_shifts (employee_assignments : list (string * list (Z * Z)))
    (employees : list employee) : M (list shift) :=
  mfold (merge_entry employees) employee_assignments [].

(** ** [demand_to_staff] *)

(** The simple forecast map [{"day_{d}_hour_{h}": demand}]: the key string
    is an injective rendering of the pair [(d, h)], so a key is that pair. *)
Definition simple_forecast := list ((Z * Z) * Q).

Definition peak_hours : list Z := py_range 12 15 ++ py_range 18 22.

Definition demand_to_staff (hour day : Z) (forecast_data : option simple_forecast) : M Z :=
  s <- get ;;
  let from_forecast :=
    match forecast_data with
    | Some ((_ :: _) as fd) =>
        match find (fun kv => Z.eqb (fst (fst kv)) day && Z.eqb (snd (fst kv)) hour) fd with
        | Some kv => Some (Z.max 1 (py_int (snd kv / inject_Z 10)))
        | None => None
        end
    | _ => None
    end in
  match from_forecast with
  | Some r => ret r
  | None =>
      if existsb (Z.eqb hour) peak_hours then ret (Z.max 2 (min_staff_per_hour s))
      else if (6 <=? hour) && (hour <=? 23) then ret (Z.max 1 (min_staff_per_hour s))
      else ret 0
  end.

(** ** [generate_schedule] *)

(** [{emp.id: [] for emp in employees}]. *)
Definition init_assignments (employees : list employee) : list (string * list (Z * Z)) :=
  fold_left (fun acc e =>
               if existsb (fun kv => String.eqb (fst kv) (emp_id e)) acc
               then map (fun kv => if String.eqb (fst kv) (emp_id e) then (fst kv, []) else kv) acc
               else acc ++ [(emp_id e, [])])
            employees [].

(** [employee_assignments[k].append(v)]. *)
Definition assignment_append (asg : list (string * list (Z * Z))) (k : string) (v : Z * Z)
    : M (list (string * list (Z * Z))) :=
  if existsb (fun kv => String.eqb (fst kv) k) asg
  then ret (map (fun kv => if String.eqb (fst kv) k then (fst kv, snd kv ++ [v]) else kv) asg)
  else raise KeyError.

(** The 168 iterations of [for day in range(7): for hour in range(24)]. *)
Definition week_slots : list (Z * Z) :=
  flat_map (fun d => map (fun h => (d, h)) (py_range 0 24)) (py_range 0 7).

Definition assign_slot (employees : list employee) (availability : list availability_slot)
    (forecast_data : option simple_forecast) (asg : list (string * list (Z * Z)))
    (dh : Z * Z) : M (list (string * list (Z * Z))) :=
  let (day, hour) := dh in
  required_staff <- demand_to_staff hour day forecast_data ;;
  if required_staff =? 0 then ret asg
  else
    selected <- pick_employees_greedy employees availability required_staff day hour ;;
    mfold (fun asg e => assignment_append asg (emp_id e) (day, hour)) selected asg.

Definition reset_run (s : gen) : gen := set_alerts [] (set_cost 0%Q s).

Definition generate_schedule (employees : list employee)
    (availability : list availability_slot) (forecast_data : option simple_forecast)
    : M (list shift * list alert) :=
  modify reset_run ;;;
  asg <- mfold (assign_slot employees availability forecast_data) week_slots
               (init_assignments employees) ;;
  shifts <- merge_hours_to_shifts asg employees ;;
  s <- get ;;
  ret (shifts, alerts s).

(** ** [load_forecast] *)

(** [round(x)]: to the nearest integer, ties to even. *)
Definition py_round (q : Q) : Z :=
  let f := Qfloor q in
  let r := (q - inject_Z f)%Q in
  if qltb r (1 # 2) then f
  else if qltb (1 # 2) r then f + 1
  else if Z.even f then f else f + 1.

(** [round(x, 3)]. *)
Definition py_round3 (q : Q) : Q := (inject_Z (py_round (q * inject_Z 1000)) / inject_Z 1000)%Q.

(** [d[k] = v] on an insertion-ordered dict. *)
Definition dict_set {K V} (eqb : K -> K -> bool) (k : K) (v : V) (d : list (K * V))
    : list (K * V) :=
  if existsb (fun kv => eqb (fst kv) k) d
  then map (fun kv => if eqb (fst kv) k then (k, v) else kv) d
  else d ++ [(k, v)].

Definition dict_get {K V} (eqb : K -> K -> bool) (k : K) (d : list (K * V)) : option V :=
  option_map snd (find (fun kv => eqb (fst kv) k) d).

(** A row of the cache query: [(forecast_date, hour_of_day,
    forecasted_demand, confidence_score)]. *)
Definition forecast_row := (Z * Z * Q * Q)%type.

(** Lines 113-123: the week's dict built from the rows. *)
Definition add_row (days : list (Z * list (Z * fentry))) (row : forecast_row)
    : list (Z * list (Z * fentry)) :=
  let '(d, h, dem, conf) := row in
  let days := match dict_get Z.eqb d days with
              | Some _ => days
              | None => dict_set Z.eqb d [] days
              end in
  let hours := match dict_get Z.eqb d days with Some hs => hs | None => [] end in
  dict_set Z.eqb d (dict_set Z.eqb h (mkFentry dem conf) hours) days.

Definition sum_conf (rows : list forecast_row) : Q :=
  fold_left (fun acc row => let '(_, _, _, c) := row in (acc + c)%Q) rows 0%Q.

(** The database query either raises (with message [str(e)]) or returns
    its rows; that outcome is the input [query]. *)
Definition load_forecast (business_id week : string) (query : string + list forecast_row)
    : M bool :=
  match query with
  | inl err =>
      append_alert (mkAlert "forecast_error" "warning"
                      [("week", DS week); ("error", DS err)]) ;;;
      ret false
  | inr [] =>
      append_alert (mkAlert "missing_forecast" "warning"
                      [("week", DS week); ("business_id", DS business_id)]) ;;;
      ret false
  | inr rows =>
      modify (fun s => set_cache (dict_set String.eqb week [] (forecast_cache s)) s) ;;;
      modify (fun s => set_cache (dict_set String.eqb week (fold_left add_row rows [])
                                              (forecast_cache s)) s) ;;;
      let forecast_count := Z.of_nat (length rows) in
      let avg_confidence := (sum_conf rows / inject_Z forecast_count)%Q in
      append_alert (mkAlert "forecast_loaded" "info"
                      [("forecasts_count", DZ forecast_count);
                       ("average_confidence", DQ (py_round3 avg_confidence));
                       ("week", DS week)]) ;;;
      ret true
  end.

(** ** [demand_to_staff_with_forecast] *)

Record conv_settings := mkConv {
  demand_per_staff : Q;
  conv_min_staff : Z;
  conv_max_staff : Z;
  confidence_threshold : Q
}.

Definition default_settings : conv_settings := mkConv 15 1 5 (7 # 10).

(** The [settings] dict: each of the four keys present or not. *)
Record settings_override := mkOverride {
  o_demand_per_staff : option Q;
  o_min_staff : option Z;
  o_max_staff : option Z;
  o_confidence_threshold : option Q
}.

Definition opt_or {A} (o : option A) (d : A) : A := match o with Some a => a | None => d end.

(** [default_settings.update(settings)] when [settings] is truthy. *)
Definition apply_settings (settings : option settings_override) : conv_settings :=
  match settings with
  | None => default_settings
  | Some o =>
      mkConv (opt_or (o_demand_per_staff o) (demand_per_staff default_settings))
             (opt_or (o_min_staff o) (conv_min_staff default_settings))
             (opt_or (o_max_staff o) (conv_max_staff default_settings))
             (opt_or (o_confidence_threshold o) (confidence_threshold default_settings))
  end.

(** Lines 175-179: the first cached week whose dict holds [target_date]. *)
Definition find_week (cache : forecast_cache_t) (target_date : Z) : option string :=
  option_map fst (find (fun wd => existsb (fun dv => Z.eqb (fst dv) target_date) (snd wd)) cache).

Definition low_confidence_alert (target_date hour : Z) (confidence : Q) : alert :=
  mkAlert "low_confidence_forecast" "warning"
    [("date", DZ target_date); ("hour", DZ hour); ("confidence", DQ confidence)].

(** Lines 181-199: the forecast lookup; [None] falls through to line 210. *)
Definition forecast_hour_data (cache : forecast_cache_t) (target_date hour : Z)
    : option fentry :=
  match find_week cache target_date with
  | Some week =>
      if String.eqb week "" then None
      else match dict_get String.eqb week cache with
           | Some days =>
               match dict_get Z.eqb target_date days with
               | Some hours => dict_get Z.eqb hour hours
               | None => None
               end
           | None => None
           end
  | None => None
  end.

Definition demand_to_staff_with_forecast (target_date hour : Z)
    (settings : option settings_override) : M Z :=
  let cs := apply_settings settings in
  s <- get ;;
  let fallback := demand_to_staff hour (py_weekday target_date) None in
  match forecast_hour_data (forecast_cache s) target_date hour with
  | Some hd =>
      if Qle_bool (confidence_threshold cs) (f_confidence hd) then
        if Qeq_bool (demand_per_staff cs) 0 then raise ZeroDivisionError
        else
          let required_staff := Z.max (conv_min_staff cs)
                                      (py_int (f_demand hd / demand_per_staff cs)) in
          ret (Z.min required_staff (conv_max_staff cs))
      else
        append_alert (low_confidence_alert target_date hour (f_confidence hd)) ;;;
        fallback
  | None => fallback
  end.

(** ** The gap-tolerant merge policy, in the words of the spec

    The current block, written by its first and last hour, is extended to
    the next hour when that hour is at most the last hour plus 4 (every
    hour in between becoming a worked hour of the block); otherwise the
    block is closed and a new one starts. *)
Definition gap_step (acc : list (Z * Z) * (Z * Z)) (h : Z) : list (Z * Z) * (Z * Z) :=
  let '(blocks, (a, b)) := acc in
  if h <=? b + 4 then (blocks, (a, h)) else (blocks ++ [(a, b)], (h, h)).

Definition gap_tolerant_blocks (hours : list Z) : list (Z * Z) :=
  match hours with
  | [] => []
  | h0 :: rest => let '(blocks, cur) := fold_left gap_step rest ([], (h0, h0)) in
                  blocks ++ [cur]
  end.

(** The worked hours of a block: every hour from its first to its last. *)
Definition block_hours (ab : Z * Z) : list Z := py_range (fst ab) (snd ab + 1).

(** ** Eligibility and the cheapest-first order *)

(** The employee passes the scan of lines 225-242 at a valid hour. *)
Definition is_suitable (slots : list availability_slot) (target_day target_hour : Z)
    (emp : employee) : bool :=
  match first_slot (emp_id emp) target_day slots with
  | None => false
  | Some sl => in_window sl (time_of target_hour 0)
  end.

Definition eligible_employees (emps : list employee) (slots : list availability_slot)
    (target_day target_hour : Z) : list employee :=
  filter (is_suitable slots target_day target_hour) emps.

Definition emp_rate_ltb (x y : employee) : bool := qltb (hourly_rate x) (hourly_rate y).

(** ** Sample data *)

Definition emp_a := mkEmployee "a" "Noa" "Cohen" 10 [].
Definition emp_b := mkEmployee "b" "Omer" "Levi" 20 [].
Definition slot_day1 (eid : string) := mkSlot eid 1 (time_of 8 0) (time_of 17 0) true.
Definition sample_gen := init_gen 100 1 739000 0.

(** ** Shift creation, case by case *)

Definition time_valid (h : Z) : bool := (0 <=? h) && (h <=? 23).

(** The hour of [end_time] for [end_hour] (lines 327-330). *)
Definition end_hour_time (end_hour : Z) : Z :=
  if 24 <=? end_hour then end_hour - 24 else end_hour.

Definition slot_overnight := mkSlot "b" 1 (time_of 22 0) (time_of 6 0) true.
Definition emp_c := mkEmployee "c" "Tal" "Mizrahi" 15 [].
Definition emp_d := mkEmployee "d" "Yael" "Peretz" 50 [].

(** ** The demand-to-staff conversion, in the words of the spec:
    [clamp(round(demand / demand_per_staff), min_staff_per_hour,
    max_staff_per_hour)]. *)
Definition spec_required_staff (cs : conv_settings) (demand : Q) : Z :=
  Z.min (Z.max (py_round (demand / demand_per_staff cs)) (conv_min_staff cs))
        (conv_max_staff cs).

Definition sample_date : Z := 739000.
Definition gen_with_forecast : gen :=
  set_cache [("2025-W01", [(sample_date, [(10, mkFentry 25 (9 # 10))])])] sample_gen.

(** ** Entries the merger keeps *)

Definition keep_entry (employees : list employee) (entry : string * list (Z * Z)) : bool :=
  match snd entry with
  | [] => false
  | _ => match employee_lookup employees (fst entry) with Some _ => true | None => false end
  end.

(** ** Alerts are only appended *)

Definition appends_only {A} (m : M A) : Prop :=
  forall s, exists l, alerts (state_of (m s)) = alerts s ++ l.

(** ** Runs that agree up to shift identifiers *)

(** Two generator states that agree on every field a run reads or returns
    (all but the forecast cache and the identifier source). *)
Definition same_run_state (s1 s2 : gen) : Prop :=
  weekly_budget s1 = weekly_budget s2 /\
  min_staff_per_hour s1 = min_staff_per_hour s2 /\
  current_cost s1 = current_cost s2 /\
  alerts s1 = alerts s2 /\
  today s1 = today s2.

Definition res_rel {A} (RA : A -> A -> Prop) (r1 r2 : res A) : Prop :=
  match r1, r2 with
  | Ok a1 s1, Ok a2 s2 => RA a1 a2 /\ same_run_state s1 s2
  | Err e1 s1, Err e2 s2 => e1 = e2 /\ same_run_state s1 s2
  | _, _ => False
  end.

Definition sim {A} (RA : A -> A -> Prop) (m1 m2 : M A) : Prop :=
  forall s1 s2, same_run_state s1 s2 -> res_rel RA (m1 s1) (m2 s2).

(** A shift with its identifier blanked out. *)
Definition erase_id (sh : shift) : shift :=
  mkShift 0 (shift_employee_id sh) (shift_date sh) (start_time sh) (end_time sh)
          (break_minutes sh) (shift_hourly_rate sh) (total_cost sh).

Definition shifts_rel (l1 l2 : list shift) : Prop := map erase_id l1 = map erase_id l2.

Definition sample_run :=
  generate_schedule [emp_a] [slot_day1 "a"] None sample_gen.

(** ** The shape of a run *)

(** The alerts a run of [generate_schedule] can append. *)
Definition run_alert (a : alert) : Prop :=
  (exists d h x y, a = insufficient_alert d h x y) \/
  (exists c x b, a = budget_alert c x b).

(** [forecast_data] is truthy and holds the key of [(day, hour)]. *)
Definition forecast_has (fd : option simple_forecast) (day hour : Z) : bool :=
  match fd with
  | Some fd => existsb (fun kv => Z.eqb (fst (fst kv)) day && Z.eqb (snd (fst kv)) hour) fd
  | None => false
  end.

(** The running total after adding the costs of [shs], in order, to [c0]. *)
Definition cost_sum (shs : list shift) (c0 : Q) : Q :=
  fold_left (fun c x => (c + total_cost x)%Q) shs c0.

(** A shift built from the assignments [asg]: the hours [a] and [b] of one
    day [d] of an employee's assignments are its first and last hour, and
    its other fields are those [_create_shift] computes for the block
    [a..b] of the employee [emps] maps the id to. *)
Definition shift_from (asg : list (string * list (Z * Z))) (emps : list employee)
    (today0 : Z) (x : shift) : Prop :=
  exists eid hours e d a b,
    In (eid, hours) asg /\ employee_lookup emps eid = Some e /\
    In (d, a) hours /\ In (d, b) hours /\ a <= b /\
    shift_employee_id x = eid /\ shift_hourly_rate x = hourly_rate e /\
    shift_date x = get_date_for_day today0 d /\
    start_time x = time_of a 0 /\ end_time x = time_of ((b + 1) mod 24) 0 /\
    break_minutes x = shift_break (b - a + 1) /\
    total_cost x = shift_cost (b - a + 1) (hourly_rate e).

(** [k in employee_assignments]. *)
Definition has_key (k : string) (asg : list (string * list (Z * Z))) : bool :=
  existsb (fun kv => String.eqb (fst kv) k) asg.

(** The slots the assignment loop may have recorded: a day of the week, an
    hour of the day, and an hour that is open or has a forecast entry. *)
Definition assigned_ok (fd : option simple_forecast) (asg : list (string * list (Z * Z))) : Prop :=
  forall k hs d h, In (k, hs) asg -> In (d, h) hs ->
    0 <= d <= 6 /\ 0 <= h <= 23 /\ (forecast_has fd d h = true \/ 6 <= h).

(** ** Reading the forecast cache back *)

(** The entry of the last row of [rows] for the date and the hour (a later
    row overwrites an earlier one in the dict). *)
Definition last_row_for (d h : Z) (rows : list forecast_row) : option fentry :=
  fold_left (fun acc (row : forecast_row) =>
               let '(d', h', dem, conf) := row in
               if Z.eqb d' d && Z.eqb h' h then Some (mkFentry dem conf) else acc)
            rows None.

(** [cache[week][date][hour]]. *)
Definition cache_lookup (cache : forecast_cache_t) (week : string) (d h : Z) : option fentry :=
  match dict_get String.eqb week cache with
  | Some days => match dict_get Z.eqb d days with
                 | Some hours => dict_get Z.eqb h hours
                 | None => None
                 end
  | None => None
  end.

(** * The schedule routes (src/api/routes/schedule.py)

    The database is outside the model: the rows the route fetches are its
    inputs, and [db_ok] says whether every database call returns (when one
    raises, the route answers as for any other exception).  A
    [HTTPException]'s detail text is omitted, as an alert's message is;
    dates and times in the response are kept as the values that
    [isoformat] and [strftime('%H:%M')] render (every shift time has zero
    minutes and seconds).  Week strings are ASCII, so [\d] is an ASCII
    digit. *)

(** The exceptions of the route layer. *)
Inductive route_exn :=
| HTTPError (status : Z)
| PyExn (e : exn)
| OverflowError.

Definition is_digit (c : ascii) : bool :=
  (48 <=? nat_of_ascii c)%nat && (nat_of_ascii c <=? 57)%nat.

Definition digit_val (c : ascii) : Z := Z.of_nat (nat_of_ascii c) - 48.

(** [re.match(r'(\d{4})-W(\d{1,2})', week_str)] with its two groups read
    by [int]: anchored at the start only, the second group greedy. *)
Definition match_week (week_str : string) : option (Z * Z) :=
  match week_str with
  | String y1 (String y2 (String y3 (String y4 (String dash (String w (String d1 rest)))))) =>
      if is_digit y1 && is_digit y2 && is_digit y3 && is_digit y4 &&
         Ascii.eqb dash "-"%char && Ascii.eqb w "W"%char && is_digit d1
      then
        let year := digit_val y1 * 1000 + digit_val y2 * 100 + digit_val y3 * 10 + digit_val y4 in
        match rest with
        | String d2 _ =>
            if is_digit d2 then Some (year, digit_val d1 * 10 + digit_val d2)
            else Some (year, digit_val d1)
        | EmptyString => Some (year, digit_val d1)
        end
      else None
  | _ => None
  end.

(** [date.toordinal()] of January 1 of [year]. *)
Definition jan1_ordinal (year : Z) : Z :=
  let y := year - 1 in y * 365 + y / 4 - y / 100 + y / 400 + 1.

(** [date.max.toordinal()]. *)
Definition max_ordinal : Z := 3652059.

(** Adding a [timedelta] raises [OverflowError] out of [date.min..date.max]. *)
Definition date_add (d n : Z) : route_exn + Z :=
  if (1 <=? d + n) && (d + n <=? max_ordinal) then inr (d + n) else inl OverflowError.

Definition parse_week_string (week_str : string) : route_exn + Z :=
  match match_week week_str with
  | None => inl (HTTPError 400)
  | Some (year, week) =>
      if (1 <=? year) && (year <=? 9999) then
        let jan_1 := jan1_ordinal year in
        match date_add jan_1 (- py_weekday jan_1) with
        | inl e => inl e
        | inr week_1_monday => date_add week_1_monday (7 * (week - 1))
        end
      else inl (PyExn ValueError)
  end.

Record sched_request := mkRequest {
  req_weekly_budget : Q;
  req_min_staff_per_hour : Z;
  req_forecast_data : option simple_forecast
}.

Record shift_dict := mkShiftDict {
  sd_id : N;
  sd_employee_id : string;
  sd_employee_name : string;
  sd_date : Z;
  sd_start_time : Z;
  sd_end_time : Z;
  sd_break_minutes : Z;
  sd_hourly_rate : Q;
  sd_total_cost : Q
}.

Record schedule_response := mkResponse {
  resp_schedule_id : N;
  resp_week_start : Z;
  resp_total_cost : Q;
  resp_budget_utilization : Q;
  resp_shifts : list shift_dict;
  resp_alerts : list alert;
  resp_status : string
}.

Definition unknown_employee_name : string := "לא ידוע".

(** [employee_dict.get(shift.employee_id, ...)], [employee_dict] built by a
    comprehension, so a later employee with the same id wins. *)
Definition employee_name (employees : list employee) (eid : string) : string :=
  match employee_lookup employees eid with
  | Some e => first_name e ++ " " ++ last_name e
  | None => unknown_employee_name
  end.

Definition to_shift_dict (employees : list employee) (x : shift) : shift_dict :=
  mkShiftDict (shift_id x) (shift_employee_id x) (employee_name employees (shift_employee_id x))
              (shift_date x) (start_time x) (end_time x) (break_minutes x)
              (shift_hourly_rate x) (total_cost x).

(** [time.hour]. *)
Definition time_hour (t : Z) : Z := t / time_of 1 0.

(** [total_hours] of [save_schedule_to_db]:
    [sum(len(range(start.hour, end.hour)) for shift in shifts)]. *)
Definition schedule_total_hours (shifts : list shift) : Z :=
  fold_left (fun acc x =>
               acc + Z.of_nat (length (py_range (time_hour (start_time x)) (time_hour (end_time x)))))
            shifts 0.

(** [POST /schedule/{week}/generate]: [today0] and [u] are the clock and the
    [uuid4] source when the request arrives; the schedule id is the first
    [uuid4] drawn after the generator's. *)
Definition route_generate_schedule (week : string) (request : sched_request)
    (employees : list employee) (availability : list availability_slot)
    (db_ok : bool) (today0 : Z) (u : N) : route_exn + schedule_response :=
  match parse_week_string week with
  | inl _ => inl (HTTPError 500)
  | inr week_start =>
      if negb db_ok then inl (HTTPError 500) else
      match employees, availability with
      | [], _ => inl (HTTPError 500)
      | _, [] => inl (HTTPError 500)
      | _, _ =>
          let generator := init_gen (req_weekly_budget request)
                                    (req_min_staff_per_hour request) today0 u in
          match generate_schedule employees availability (req_forecast_data request) generator with
          | Err _ _ => inl (HTTPError 500)
          | Ok (shifts, alerts0) g =>
              let schedule_id := uuid_next g in
              let budget_utilization :=
                if qltb 0 (req_weekly_budget request)
                then (current_cost g / req_weekly_budget request * 100)%Q else 0%Q in
              inr (mkResponse schedule_id week_start (current_cost g) budget_utilization
                              (map (to_shift_dict employees) shifts) alerts0 "draft")
          end
      end
  end.

(** The cost [GET /schedule/{week}] recomputes for a stored shift row:
    the hours from start to end on one day, less the break, times the rate
    (0 when the rate is falsy). *)
Definition stored_shift_cost (start end_ break : Z) (rate : Q) : Q :=
  let hours_worked := (inject_Z (end_ - start) / inject_Z 1000000 / inject_Z 3600)%Q in
  let actual_work_hours := (hours_worked - inject_Z break / inject_Z 60)%Q in
  if Qeq_bool rate 0 then 0%Q else (actual_work_hours * rate)%Q.

(** Settings raising the confidence threshold, and a zero demand per staff. *)
Definition strict_settings : settings_override := mkOverride None (Some 3) None (Some (95 # 100)).

Definition zero_rate_settings : settings_override := mkOverride (Some 0%Q) None None None.

(** The value of a run, and the shifts and alerts of [sample_run]. *)
Definition res_value {A} (r : res A) (d : A) : A := match r with Ok a _ => a | Err _ _ => d end.

Definition sample_shifts : list shift := fst (res_value sample_run ([], [])).
Definition sample_alerts : list alert := snd (res_value sample_run ([], [])).

(** * Lemmas *)

(** ** Integer ranges *)

Lemma zseq_app : forall n m a,
  zseq a (n + m) = zseq a n ++ zseq (a + Z.of_nat n) m.
Proof.
  induction n as [|n IH]; intros m a; simpl.
  - now rewrite Z.add_0_r.
  - rewrite IH. do 3 f_equal. lia.
Qed.

Lemma in_zseq : forall n a y, In y (zseq a n) <-> a <= y < a + Z.of_nat n.
Proof.
  induction n as [|n IH]; intros a y; simpl.
  - lia.
  - rewrite IH. lia.
Qed.

Lemma last_zseq : forall n a d, last (zseq a (S n)) d = a + Z.of_nat n.
Proof.
  induction n as [|n IH]; intros a d.
  - simpl. lia.
  - change (last (zseq (a + 1) (S n)) d = a + Z.of_nat (S n)).
    rewrite IH. lia.
Qed.

Lemma fill_zseq : forall n a c, (forall y, In y c -> y < a) ->
  fold_left fill_step (zseq a n) c = c ++ zseq a n.
Proof.
  induction n as [|n IH]; intros a c Hc; simpl.
  - now rewrite app_nil_r.
  - unfold fill_step at 2.
    replace (existsb (Z.eqb a) c) with false.
    + rewrite IH, <- app_assoc; [reflexivity|].
      intros y Hy. apply in_app_or in Hy as [Hy|[<-|[]]]; [specialize (Hc y Hy)|]; lia.
    + symmetry. apply Bool.not_true_iff_false. intros Hex.
      apply existsb_exists in Hex as [y [Hy Hyeq]].
      apply Z.eqb_eq in Hyeq. subst y. specialize (Hc a Hy). lia.
Qed.

Lemma block_hours_eq : forall a b, a <= b ->
  block_hours (a, b) = zseq a (S (Z.to_nat (b - a))).
Proof.
  intros a b Hab. unfold block_hours, py_range; simpl.
  now replace (Z.to_nat (b + 1 - a)) with (S (Z.to_nat (b - a))) by lia.
Qed.

Lemma fill_gap_block : forall a b h, a <= b -> b <= h ->
  fill_gap (block_hours (a, b)) h = block_hours (a, h).
Proof.
  intros a b h Hab Hbh. unfold fill_gap.
  rewrite (block_hours_eq a b Hab), last_zseq.
  unfold py_range. rewrite fill_zseq.
  - rewrite (block_hours_eq a h) by lia.
    replace (S (Z.to_nat (h - a))) with (S (Z.to_nat (b - a)) + Z.to_nat (h + 1 - (a + Z.of_nat (Z.to_nat (b - a)) + 1)))%nat by lia.
    rewrite zseq_app. do 2 f_equal. lia.
  - intros y Hy. apply in_zseq in Hy. lia.
Qed.

(** ** Sorting *)

Section SortBy.
Variable A : Type.
Variable ltb : A -> A -> bool.
Hypothesis ltb_asym : forall x y, ltb x y = true -> ltb y x = false.

Definition not_gt (x y : A) : Prop := ltb y x = false.

Lemma insert_by_sorted : forall x l,
    Sorted not_gt l -> Sorted not_gt (insert_by ltb x l).
  Proof.
    intros x l. induction l as [|y ys IH]; intros Hs; simpl.
    - repeat constructor.
    - destruct (ltb y x) eqn:Eyx.
      + inversion Hs as [|? ? Hys Hhd]; subst.
        constructor; [now apply IH|].
        destruct ys as [|z zs]; simpl.
        * constructor. unfold not_gt. now apply ltb_asym.
        * inversion Hhd; subst. destruct (ltb z x); constructor; auto.
          unfold not_gt. now apply ltb_asym.
      + constructor; [exact Hs|]. now constructor.
  Qed.

Lemma sort_by_sorted : forall l, Sorted not_gt (sort_by ltb l).
  Proof.
    induction l as [|x xs IH]; simpl; [constructor|].
    now apply insert_by_sorted.
  Qed.

Lemma insert_by_perm : forall x l, Permutation (insert_by ltb x l) (x :: l).
  Proof.
    intros x l. induction l as [|y ys IH]; simpl; [reflexivity|].
    destruct (ltb y x); [|reflexivity].
    rewrite IH. apply perm_swap.
  Qed.

Lemma sort_by_perm : forall l, Permutation (sort_by ltb l) l.
  Proof.
    induction l as [|x xs IH]; simpl; [reflexivity|].
    rewrite insert_by_perm. now constructor.
  Qed.
End SortBy.

Lemma sorted_weaken {A} (R S : A -> A -> Prop) :
  (forall x y, R x y -> S x y) -> forall l, Sorted R l -> Sorted S l.
Proof.
  intros HRS l Hl. induction Hl as [|x l Hl IH Hhd]; constructor; [exact IH|].
  destruct Hhd; constructor. now apply HRS.
Qed.

Lemma py_sort_ints_sorted : forall l, Sorted Z.le (py_sort_ints l).
Proof.
  intros l. eapply sorted_weaken; [|apply (sort_by_sorted Z Z.ltb)].
  - intros x y H. unfold not_gt in H. apply Z.ltb_ge in H. exact H.
  - intros x y H. apply Z.ltb_lt in H. apply Z.ltb_ge. lia.
Qed.

(** ** The range loop against the spec's blocks *)

Lemma range_step_block : forall bs a b h, a <= b -> b <= h ->
  range_step (map block_hours bs, block_hours (a, b)) h =
  if h <=? b + 4 then (map block_hours bs, block_hours (a, h))
  else (map block_hours (bs ++ [(a, b)]), block_hours (h, h)).
Proof.
  intros bs a b h Hab Hbh. unfold range_step.
  assert (Hl : last (block_hours (a, b)) 0 = b).
  { rewrite (block_hours_eq a b Hab), last_zseq. lia. }
  rewrite Hl. destruct (h <=? b + 4).
  - rewrite fill_gap_block; auto.
  - rewrite map_app. f_equal. unfold block_hours, py_range; simpl.
    now replace (Z.to_nat (h + 1 - h)) with 1%nat by lia.
Qed.

Lemma range_fold_blocks : forall rest bs a b,
  Sorted Z.le (b :: rest) -> a <= b ->
  fold_left range_step rest (map block_hours bs, block_hours (a, b)) =
  (map block_hours (fst (fold_left gap_step rest (bs, (a, b)))),
   block_hours (snd (fold_left gap_step rest (bs, (a, b))))).
Proof.
  induction rest as [|h rest IH]; intros bs a b Hs Hab; cbn [fold_left]; [reflexivity|].
  inversion Hs as [|? ? Hs' Hhd]; subst. inversion Hhd; subst.
  rewrite range_step_block by lia.
  change (gap_step (bs, (a, b)) h) with
    (if h <=? b + 4 then (bs, (a, h)) else (bs ++ [(a, b)], (h, h))).
  destruct (h <=? b + 4); apply IH; auto; lia.
Qed.

Definition block_ok (ab : Z * Z) : Prop := fst ab <= snd ab.

Lemma gap_fold_ok : forall rest bs a b,
  Sorted Z.le (b :: rest) -> a <= b -> Forall block_ok bs ->
  Forall block_ok (fst (fold_left gap_step rest (bs, (a, b)))) /\
  block_ok (snd (fold_left gap_step rest (bs, (a, b)))).
Proof.
  induction rest as [|h rest IH]; intros bs a b Hs Hab Hbs; cbn [fold_left];
    [split; [exact Hbs|exact Hab]|].
  inversion Hs as [|? ? Hs' Hhd]; subst. inversion Hhd; subst.
  change (gap_step (bs, (a, b)) h) with
    (if h <=? b + 4 then (bs, (a, h)) else (bs ++ [(a, b)], (h, h))).
  destruct (h <=? b + 4); apply IH; auto; try lia.
  apply Forall_app; split; [exact Hbs|]. constructor; [exact Hab|constructor].
Qed.

Lemma continuous_ranges_blocks : forall hours, Sorted Z.le hours ->
  continuous_ranges hours = map block_hours (gap_tolerant_blocks hours) /\
  Forall block_ok (gap_tolerant_blocks hours).
Proof.
  intros [|h0 rest] Hs; [split; [reflexivity|constructor]|].
  unfold continuous_ranges, gap_tolerant_blocks.
  replace ([] : list (list Z), [h0]) with (map block_hours [], block_hours (h0, h0))
    by (unfold block_hours, py_range; simpl; now replace (Z.to_nat (h0 + 1 - h0)) with 1%nat by lia).
  rewrite range_fold_blocks by (auto; lia).
  destruct (gap_fold_ok rest [] h0 h0 Hs (Z.le_refl _) (Forall_nil _)) as [Hbs Hcur].
  destruct (fold_left gap_step rest ([], (h0, h0))) as [bs [a b]].
  simpl in Hbs, Hcur |- *. unfold block_ok in Hcur; simpl in Hcur.
  assert (Hne : block_hours (a, b) <> []) by (rewrite (block_hours_eq a b Hcur); discriminate).
  destruct (block_hours (a, b)) as [|c cs] eqn:Ecur; [congruence|].
  split.
  - cbv beta iota. rewrite map_app. simpl. now rewrite Ecur.
  - apply Forall_app; split; [exact Hbs|]. constructor; [exact Hcur|constructor].
Qed.

(** ** [pick_employees_greedy] *)

Lemma py_time_ok : forall h s, 0 <= h <= 23 -> py_time h 0 s = Ok (time_of h 0) s.
Proof.
  intros h s Hh. unfold py_time.
  replace ((0 <=? h) && (h <=? 23) && (0 <=? 0) && (0 <=? 59)) with true; [reflexivity|].
  symmetry. repeat rewrite Bool.andb_true_iff. repeat split; apply Z.leb_le; lia.
Qed.

Lemma check_employees_ok : forall slots day hour l acc s, 0 <= hour <= 23 ->
  mfold (check_employee slots day hour) l acc s =
  Ok (acc ++ map (fun e => (e, hourly_rate e)) (eligible_employees l slots day hour)) s.
Proof.
  intros slots day hour l. unfold eligible_employees.
  induction l as [|e l IH]; intros acc s Hh; simpl.
  - now rewrite app_nil_r.
  - unfold bind at 1. unfold check_employee, is_suitable.
    destruct (first_slot (emp_id e) day slots) as [sl|]; simpl.
    + unfold bind at 1. rewrite py_time_ok by exact Hh.
      destruct (in_window sl (time_of hour 0)); simpl; rewrite IH by exact Hh;
        [now rewrite <- app_assoc|reflexivity].
    + now rewrite IH.
Qed.

Lemma insert_by_map {A B} (f : A -> B) (ltb : B -> B -> bool) (ltb' : A -> A -> bool) :
  (forall x y, ltb (f x) (f y) = ltb' x y) ->
  forall x l, insert_by ltb (f x) (map f l) = map f (insert_by ltb' x l).
Proof.
  intros H x l. induction l as [|y ys IH]; simpl; [reflexivity|].
  rewrite H. destruct (ltb' y x); simpl; now rewrite ?IH.
Qed.

Lemma sort_by_map {A B} (f : A -> B) (ltb : B -> B -> bool) (ltb' : A -> A -> bool) :
  (forall x y, ltb (f x) (f y) = ltb' x y) ->
  forall l, sort_by ltb (map f l) = map f (sort_by ltb' l).
Proof.
  intros H l. induction l as [|x xs IH]; simpl; [reflexivity|].
  rewrite IH. now apply insert_by_map.
Qed.

Section Stability.
Variable A : Type.
Variable ltb : A -> A -> bool.
Variable P : A -> bool.
  (** An element of the class of [x] is never strictly below [x]. *)
Hypothesis class_not_below : forall x y, P x = true -> ltb y x = true -> P y = false.

Lemma filter_insert_by : forall x l,
    filter P (insert_by ltb x l) = if P x then x :: filter P l else filter P l.
  Proof.
    intros x l. induction l as [|y ys IH]; simpl.
    - now destruct (P x).
    - destruct (ltb y x) eqn:Eyx; simpl.
      + rewrite IH. destruct (P x) eqn:Px; [|now destruct (P y)].
        now rewrite (class_not_below x y Px Eyx).
      + now destruct (P x).
  Qed.

Lemma filter_sort_by : forall l, filter P (sort_by ltb l) = filter P l.
  Proof.
    induction l as [|x xs IH]; simpl; [reflexivity|].
    rewrite filter_insert_by, IH. reflexivity.
  Qed.
End Stability.

Lemma qltb_true : forall x y, qltb x y = true <-> (x < y)%Q.
Proof.
  intros x y. unfold qltb. rewrite Bool.negb_true_iff.
  split; intros H.
  - apply Qnot_le_lt. intros Hle. apply Qle_bool_iff in Hle. congruence.
  - apply Bool.not_true_iff_false. intros Hle. apply Qle_bool_iff in Hle.
    apply (Qlt_not_le x y); assumption.
Qed.

Lemma qltb_false : forall x y, qltb x y = false <-> (y <= x)%Q.
Proof.
  intros x y. unfold qltb. rewrite Bool.negb_false_iff. apply Qle_bool_iff.
Qed.

Lemma emp_rate_ltb_asym : forall x y, emp_rate_ltb x y = true -> emp_rate_ltb y x = false.
Proof.
  unfold emp_rate_ltb. intros x y H. apply qltb_true in H. apply qltb_false.
  now apply Qlt_le_weak.
Qed.

Lemma sort_by_rate_sorted : forall l,
  Sorted (fun x y => (hourly_rate x <= hourly_rate y)%Q) (sort_by emp_rate_ltb l).
Proof.
  intros l. eapply sorted_weaken; [|apply (sort_by_sorted _ emp_rate_ltb emp_rate_ltb_asym)].
  intros x y H. unfold not_gt, emp_rate_ltb in H. now apply qltb_false in H.
Qed.

Lemma sort_by_rate_stable : forall q l,
  filter (fun e => Qeq_bool (hourly_rate e) q) (sort_by emp_rate_ltb l) =
  filter (fun e => Qeq_bool (hourly_rate e) q) l.
Proof.
  intros q l. apply filter_sort_by.
  intros x y Px Hlt. unfold emp_rate_ltb in Hlt. apply qltb_true in Hlt.
  apply Qeq_bool_iff in Px. apply Bool.not_true_iff_false. intros Py.
  apply Qeq_bool_iff in Py. rewrite Px, Py in Hlt. exact (Qlt_irrefl q Hlt).
Qed.

Lemma firstn_map_fst {A B} (f : A -> B) : forall n l,
  map fst (firstn n (map (fun x => (x, f x)) l)) = firstn n l.
Proof.
  induction n as [|n IH]; intros [|x l]; simpl; auto. now rewrite IH.
Qed.

(** * Claims *)

(** C1: for every day's assigned hours, sorted as the merger sorts them,
    the blocks built by [merge_hours_to_shifts] are those of the
    gap-tolerant policy: a block is extended to the next hour whenever that
    hour is at most the block's last hour plus 4, every hour in between
    becoming a worked hour of the block, and a new block starts otherwise.
    Hours [9,10,14] give the single block [9..14]; hours [9,10,16] give two
    blocks. *)
Theorem merge_hours_gap_tolerant :
  (forall day_hours,
     day_ranges day_hours =
     map block_hours (gap_tolerant_blocks (py_sort_ints (py_sort_ints day_hours)))) /\
  day_ranges [9; 10; 14] = [[9; 10; 11; 12; 13; 14]] /\
  length (day_ranges [9; 10; 16]) = 2%nat.
Proof.
  split; [|split; reflexivity].
  intros day_hours. unfold day_ranges.
  apply continuous_ranges_blocks, py_sort_ints_sorted.
Qed.

(** C2 (as stated, refuted): with [required_count = -1] and two eligible
    employees, Python's slice [suitable[:-1]] returns one employee, not
    [min(-1, 2)] of them. *)
Lemma pick_negative_required_counterexample :
  match pick_employees_greedy [emp_b; emp_a] [slot_day1 "a"; slot_day1 "b"] (-1) 1 9 sample_gen with
  | Ok r _ => Z.of_nat (length r) <>
              Z.min (-1) (Z.of_nat (length (eligible_employees [emp_b; emp_a]
                                              [slot_day1 "a"; slot_day1 "b"] 1 9)))
  | Err _ _ => False
  end.
Proof. vm_compute. discriminate. Qed.

(** C2 (amended): for a non-negative [required_count] and an hour in
    [0..23], [pick_employees_greedy] returns the first
    [min(required_count, #eligible)] employees of a list that holds exactly
    the eligible employees, ordered by ascending hourly rate, employees of
    equal rate keeping their input order. *)
Theorem pick_employees_greedy_cheapest_first :
  forall emps slots required_count day hour s,
  0 <= required_count -> 0 <= hour <= 23 ->
  exists s',
    pick_employees_greedy emps slots required_count day hour s =
      Ok (firstn (Z.to_nat (Z.min required_count
                              (Z.of_nat (length (eligible_employees emps slots day hour)))))
                 (sort_by emp_rate_ltb (eligible_employees emps slots day hour))) s' /\
    Permutation (sort_by emp_rate_ltb (eligible_employees emps slots day hour))
                (eligible_employees emps slots day hour) /\
    Sorted (fun x y => (hourly_rate x <= hourly_rate y)%Q)
           (sort_by emp_rate_ltb (eligible_employees emps slots day hour)) /\
    (forall q, filter (fun e => Qeq_bool (hourly_rate e) q)
                      (sort_by emp_rate_ltb (eligible_employees emps slots day hour)) =
               filter (fun e => Qeq_bool (hourly_rate e) q)
                      (eligible_employees emps slots day hour)) /\
    length (firstn (Z.to_nat (Z.min required_count
                                (Z.of_nat (length (eligible_employees emps slots day hour)))))
                   (sort_by emp_rate_ltb (eligible_employees emps slots day hour))) =
    Z.to_nat (Z.min required_count (Z.of_nat (length (eligible_employees emps slots day hour)))).
Proof.
  intros emps slots required_count day hour s Hreq Hh.
  set (elig := eligible_employees emps slots day hour).
  assert (Hperm : Permutation (sort_by emp_rate_ltb elig) elig) by apply sort_by_perm.
  assert (Hlen : length (sort_by emp_rate_ltb elig) = length elig)
    by now apply Permutation_length.
  unfold pick_employees_greedy, bind at 1.
  rewrite check_employees_ok by exact Hh. simpl app. fold elig.
  rewrite (sort_by_map (fun e => (e, hourly_rate e)) rate_ltb emp_rate_ltb)
    by reflexivity.
  rewrite length_map, Hlen.
  set (k := Z.min required_count (Z.of_nat (length elig))).
  assert (Hk : 0 <= k) by (unfold k; lia).
  assert (Hslice : map fst (py_slice_to (map (fun e => (e, hourly_rate e))
                                             (sort_by emp_rate_ltb elig)) k) =
                   firstn (Z.to_nat k) (sort_by emp_rate_ltb elig)).
  { unfold py_slice_to. rewrite (proj2 (Z.leb_le 0 k) Hk). apply (firstn_map_fst hourly_rate). }
  unfold bind. destruct (k <? required_count); simpl;
    (eexists; split; [rewrite Hslice; reflexivity|]);
    (split; [exact Hperm|split; [apply sort_by_rate_sorted|split; [intros q; apply sort_by_rate_stable|]]]);
    rewrite length_firstn, Hlen; lia.
Qed.

(** Sample run: of two eligible employees with rates 10 and 20 and
    [required_count = 1], only the rate-10 employee is returned. *)
Lemma pick_employees_greedy_cheapest_first_witness :
  (0 <= 1 /\ 0 <= 9 <= 23) /\
  (exists s',
    pick_employees_greedy [emp_b; emp_a] [slot_day1 "a"; slot_day1 "b"] 1 1 9 sample_gen =
      Ok (firstn (Z.to_nat (Z.min 1 (Z.of_nat (length (eligible_employees [emp_b; emp_a]
                                                   [slot_day1 "a"; slot_day1 "b"] 1 9)))))
                 (sort_by emp_rate_ltb (eligible_employees [emp_b; emp_a]
                                          [slot_day1 "a"; slot_day1 "b"] 1 9))) s') /\
  pick_employees_greedy [emp_b; emp_a] [slot_day1 "a"; slot_day1 "b"] 1 1 9 sample_gen =
    Ok [emp_a] sample_gen.
Proof.
  split; [split; lia|split; [|vm_compute; reflexivity]].
  destruct (pick_employees_greedy_cheapest_first [emp_b; emp_a] [slot_day1 "a"; slot_day1 "b"]
              1 1 9 sample_gen ltac:(lia) ltac:(lia)) as [s' [H _]].
  exists s'. exact H.
Defined.

(** ** [_create_shift] *)

Lemma py_time_0 : forall h, py_time h 0 =
  if time_valid h then ret (time_of h 0) else raise ValueError.
Proof.
  intros h. unfold py_time, time_valid. now rewrite !Bool.andb_true_r.
Qed.

Lemma create_shift_eq : forall eid day start_hour hours emp s,
  create_shift eid day start_hour hours emp s =
  if time_valid start_hour && time_valid (end_hour_time (last hours 0 + 1)) then
    let n := Z.of_nat (length hours) in
    let c := shift_cost n (hourly_rate emp) in
    let s1 := if qltb (weekly_budget s) (current_cost s + c)%Q
              then set_alerts (alerts s ++ [budget_alert (current_cost s) c (weekly_budget s)]) s
              else s in
    Ok (mkShift (uuid_next s) eid (get_date_for_day (today s) day) (time_of start_hour 0)
                (time_of (end_hour_time (last hours 0 + 1)) 0) (shift_break n)
                (hourly_rate emp) c)
       (set_uuid (N.succ (uuid_next s)) (set_cost (current_cost s + c)%Q s1))
  else Err ValueError s.
Proof.
  intros eid day start_hour hours emp s.
  unfold create_shift, bind, get. rewrite py_time_0.
  destruct (time_valid start_hour) eqn:Hv1; [|reflexivity]. simpl.
  unfold end_hour_time. destruct (24 <=? last hours 0 + 1); rewrite py_time_0;
    [destruct (time_valid (last hours 0 + 1 - 24))|destruct (time_valid (last hours 0 + 1))];
    simpl; try reflexivity;
    destruct (qltb _ _); reflexivity.
Qed.

(** ** Loops and invariants *)

Lemma mfold_inv {A B} (I : A -> Prop) (f : A -> B -> M A) : forall l,
  (forall a x s a' s', In x l -> I a -> f a x s = Ok a' s' -> I a') ->
  forall a s a' s', I a -> mfold f l a s = Ok a' s' -> I a'.
Proof.
  induction l as [|x xs IH]; intros Hf a s a' s' Ha Hrun; simpl in Hrun.
  - unfold ret in Hrun. congruence.
  - unfold bind in Hrun. destruct (f a x s) as [a1 s1|e s1] eqn:E; [|discriminate].
    apply (IH (fun a x s a' s' Hx => Hf a x s a' s' (or_intror Hx)) a1 s1 a' s');
      [|exact Hrun].
    exact (Hf a x s a1 s1 (or_introl eq_refl) Ha E).
Qed.

Lemma end_hour_time_mod : forall e, 0 <= e ->
  time_valid (end_hour_time e) = true -> end_hour_time e = e mod 24.
Proof.
  intros e He Hv. unfold time_valid, end_hour_time in *.
  destruct (24 <=? e) eqn:E; apply andb_prop in Hv as [H1 H2];
    apply Z.leb_le in H1, H2.
  - apply Z.leb_le in E. apply Z.mod_unique with 1; lia.
  - apply Z.leb_gt in E. symmetry. apply Z.mod_small. lia.
Qed.

Lemma hd_block_hours : forall a b, a <= b -> hd 0 (block_hours (a, b)) = a.
Proof. intros a b Hab. now rewrite block_hours_eq. Qed.

Lemma last_block_hours : forall a b, a <= b -> last (block_hours (a, b)) 0 = b.
Proof. intros a b Hab. rewrite block_hours_eq, last_zseq by exact Hab. lia. Qed.

Lemma length_block_hours : forall a b, a <= b ->
  Z.of_nat (length (block_hours (a, b))) = b - a + 1.
Proof.
  intros a b Hab. rewrite block_hours_eq by exact Hab.
  assert (Hl : forall n x, length (zseq x n) = n)
    by (induction n; intros; simpl; auto).
  simpl. rewrite Hl. lia.
Qed.

Lemma in_day_ranges : forall day_hours hr, In hr (day_ranges day_hours) ->
  exists a b, a <= b /\ hr = block_hours (a, b).
Proof.
  intros day_hours hr Hin. unfold day_ranges in Hin.
  destruct (continuous_ranges_blocks _ (py_sort_ints_sorted (py_sort_ints day_hours)))
    as [Heq Hok].
  rewrite Heq in Hin. apply in_map_iff in Hin as [[a b] [<- Hab]].
  rewrite Forall_forall in Hok. exists a, b. split; [exact (Hok _ Hab)|reflexivity].
Qed.

(** * Claims, continued *)

(** C3: when [_create_shift] builds a shift (its start hour and end hour
    are valid times), the [budget_exceeded] alert, carrying the running
    total before the shift, the shift's cost and the budget, is appended
    exactly when the running total plus the shift's cost exceeds the
    weekly budget; the shift is created and the running total increased by
    its cost in both cases. *)
Theorem create_shift_budget_alert : forall eid day start_hour hours emp s,
  time_valid start_hour = true ->
  time_valid (end_hour_time (last hours 0 + 1)) = true ->
  exists sh s',
    create_shift eid day start_hour hours emp s = Ok sh s' /\
    total_cost sh = shift_cost (Z.of_nat (length hours)) (hourly_rate emp) /\
    current_cost s' = (current_cost s + total_cost sh)%Q /\
    (((weekly_budget s < current_cost s + total_cost sh)%Q /\
      alerts s' = alerts s ++ [budget_alert (current_cost s) (total_cost sh) (weekly_budget s)]) \/
     (~ (weekly_budget s < current_cost s + total_cost sh)%Q /\ alerts s' = alerts s)).
Proof.
  intros eid day start_hour hours emp s Hv1 Hv2.
  rewrite create_shift_eq, Hv1, Hv2. simpl.
  eexists; eexists; split; [reflexivity|]. simpl.
  destruct (qltb (weekly_budget s)
             (current_cost s + shift_cost (Z.of_nat (length hours)) (hourly_rate emp))%Q) eqn:E;
    simpl; (split; [reflexivity|split; [reflexivity|]]).
  - left. split; [now apply qltb_true|reflexivity].
  - right. split; [|reflexivity]. apply qltb_false in E. now apply Qle_not_lt.
Qed.

(** Sample run: budget 100, two shifts of cost 60 for the same employee;
    the second one raises the alert, and only it. *)
Lemma create_shift_budget_alert_witness :
  (time_valid 9 = true /\ time_valid (end_hour_time (last [9; 10; 11; 12] 0 + 1)) = true) /\
  (exists sh s',
    create_shift "c" 1 9 [9; 10; 11; 12] emp_c (set_cost 60 sample_gen) = Ok sh s' /\
    total_cost sh = shift_cost (Z.of_nat (length [9; 10; 11; 12])) (hourly_rate emp_c) /\
    current_cost s' = (current_cost (set_cost 60 sample_gen) + total_cost sh)%Q /\
    (((weekly_budget (set_cost 60 sample_gen) < current_cost (set_cost 60 sample_gen) + total_cost sh)%Q /\
      alerts s' = alerts (set_cost 60 sample_gen) ++
                  [budget_alert (current_cost (set_cost 60 sample_gen)) (total_cost sh)
                                (weekly_budget (set_cost 60 sample_gen))]) \/
     (~ (weekly_budget (set_cost 60 sample_gen) < current_cost (set_cost 60 sample_gen) + total_cost sh)%Q /\
      alerts s' = alerts (set_cost 60 sample_gen)))) /\
  alerts (state_of (merge_hours_to_shifts
                      [("c", [(0, 9); (0, 10); (0, 11); (0, 12); (1, 9); (1, 10); (1, 11); (1, 12)])]
                      [emp_c] sample_gen)) =
  [budget_alert (shift_cost 4 15) (shift_cost 4 15) 100].
Proof.
  split; [split; reflexivity|split; [|vm_compute; reflexivity]].
  apply create_shift_budget_alert; reflexivity.
Defined.

(** C5: for an availability slot whose start time is after its end time
    (an overnight window), found as the employee's first matching slot, the
    employee is eligible at the target hour exactly when [time(hour, 0)] is
    at or after the start or at or before the end; a slot (day 1, 22:00,
    06:00, available) makes the employee eligible at hour 2 of day 1. *)
Theorem overnight_slot_eligibility : forall emps slots day hour emp sl,
  In emp emps ->
  first_slot (emp_id emp) day slots = Some sl ->
  slot_end_time sl < slot_start_time sl ->
  (In emp (eligible_employees emps slots day hour) <->
   slot_start_time sl <= time_of hour 0 \/ time_of hour 0 <= slot_end_time sl).
Proof.
  intros emps slots day hour emp sl Hin Hfirst Hov.
  unfold eligible_employees. rewrite filter_In. unfold is_suitable. rewrite Hfirst.
  unfold in_window. replace (slot_start_time sl <=? slot_end_time sl) with false
    by (symmetry; apply Z.leb_gt; exact Hov).
  rewrite Bool.orb_true_iff, !Z.leb_le. tauto.
Qed.

Lemma overnight_slot_eligibility_witness :
  (In emp_b [emp_b] /\ first_slot (emp_id emp_b) 1 [slot_overnight] = Some slot_overnight /\
   slot_end_time slot_overnight < slot_start_time slot_overnight) /\
  In emp_b (eligible_employees [emp_b] [slot_overnight] 1 2) /\
  pick_employees_greedy [emp_b] [slot_overnight] 1 1 2 sample_gen = Ok [emp_b] sample_gen.
Proof.
  split; [split; [left; reflexivity|split; [reflexivity|vm_compute; reflexivity]]|split].
  - apply (overnight_slot_eligibility [emp_b] [slot_overnight] 1 2 emp_b slot_overnight);
      [left; reflexivity|reflexivity|vm_compute; reflexivity|].
    right. vm_compute. discriminate.
  - vm_compute. reflexivity.
Defined.

(** C6: every shift produced by [merge_hours_to_shifts] covers a block of
    [n >= 1] consecutive hours from its start hour [a] (its end time is
    [(a + n) mod 24]), has [break_minutes = max(0, (n - 4) * 15)] and
    [total_cost = (n*60 - break_minutes)/60 * hourly_rate]. *)
Theorem merge_shift_break_and_cost : forall asg emps s shs s',
  merge_hours_to_shifts asg emps s = Ok shs s' ->
  forall sh, In sh shs ->
  exists a n, 0 < n /\
    start_time sh = time_of a 0 /\
    end_time sh = time_of ((a + n) mod 24) 0 /\
    break_minutes sh = Z.max 0 ((n - 4) * 15) /\
    total_cost sh = ((inject_Z (n * 60 - break_minutes sh) / inject_Z 60) * shift_hourly_rate sh)%Q.
Proof.
  intros asg emps s shs s' Hrun.
  pose (Q := fun sh : shift => exists a n, 0 < n /\
    start_time sh = time_of a 0 /\
    end_time sh = time_of ((a + n) mod 24) 0 /\
    break_minutes sh = Z.max 0 ((n - 4) * 15) /\
    total_cost sh = ((inject_Z (n * 60 - break_minutes sh) / inject_Z 60) * shift_hourly_rate sh)%Q).
  apply (Forall_forall Q).
  refine (mfold_inv (Forall Q) (merge_entry emps) asg _ [] s shs s' (Forall_nil _) Hrun).
  intros acc [eid hours] s0 acc' s0' _ Hacc Hstep. unfold merge_entry in Hstep.
  destruct hours as [|h hs]; [unfold ret in Hstep; congruence|].
  destruct (employee_lookup emps eid) as [emp|]; [|unfold ret in Hstep; congruence].
  refine (mfold_inv (Forall Q) (merge_day eid emp) _ _ acc s0 acc' s0' Hacc Hstep).
  clear acc s0 acc' s0' Hacc Hstep.
  intros acc [day dh] s0 acc' s0' _ Hacc Hstep. unfold merge_day in Hstep.
  destruct (py_sort_ints dh); [unfold ret in Hstep; congruence|].
  refine (mfold_inv (Forall Q) _ _ _ acc s0 acc' s0' Hacc Hstep).
  clear acc s0 acc' s0' Hacc Hstep.
  intros acc hr s0 acc' s0' Hin Hacc Hstep.
  destruct (in_day_ranges _ _ Hin) as [a [b [Hab ->]]].
  pose proof (length_block_hours a b Hab) as Hlen.
  replace (1 <=? length (block_hours (a, b)))%nat with true in Hstep
    by (symmetry; apply Nat.leb_le; lia).
  unfold bind in Hstep. rewrite create_shift_eq in Hstep.
  rewrite hd_block_hours, last_block_hours in Hstep by exact Hab.
  destruct (time_valid a) eqn:Hva; [|discriminate].
  destruct (time_valid (end_hour_time (b + 1))) eqn:Hvb; [|discriminate].
  simpl in Hstep. unfold ret in Hstep. injection Hstep as <- _.
  apply Forall_app. split; [exact Hacc|]. constructor; [|constructor].
  exists a, (b - a + 1). rewrite Hlen. simpl.
  unfold time_valid in Hva. apply andb_prop in Hva as [Ha _]. apply Z.leb_le in Ha.
  rewrite (end_hour_time_mod (b + 1)) by (lia || exact Hvb).
  repeat split; try lia; try reflexivity.
  f_equal. f_equal. lia.
Qed.

(** Sample run: an 8-hour block at rate 50 gives a shift with a 60-minute
    break and a cost of 350. *)
Lemma merge_shift_break_and_cost_witness :
  exists shs s',
    merge_hours_to_shifts [("d", map (fun h => (2, h)) (py_range 9 17))] [emp_d] sample_gen =
      Ok shs s' /\
    (forall sh, In sh shs ->
      exists a n, 0 < n /\
        start_time sh = time_of a 0 /\
        end_time sh = time_of ((a + n) mod 24) 0 /\
        break_minutes sh = Z.max 0 ((n - 4) * 15) /\
        total_cost sh = ((inject_Z (n * 60 - break_minutes sh) / inject_Z 60) * shift_hourly_rate sh)%Q) /\
    map break_minutes shs = [60] /\
    Forall (fun sh => (total_cost sh == 350)%Q) shs.
Proof.
  eexists; eexists; split; [vm_compute; reflexivity|].
  split; [|split; [reflexivity|repeat constructor]].
  eapply (merge_shift_break_and_cost [("d", map (fun h => (2, h)) (py_range 9 17))] [emp_d]
           sample_gen).
  vm_compute. reflexivity.
Defined.

(** C4 (as stated, refuted): a cached entry of demand 25 and confidence
    0.9 under the default settings gives [int(25 / 15) = 1] staff, while
    [clamp(round(25 / 15), 1, 5) = 2]. *)
Lemma demand_to_staff_with_forecast_round_counterexample :
  match demand_to_staff_with_forecast sample_date 10 None gen_with_forecast with
  | Ok r _ => r = 1 /\ spec_required_staff default_settings 25 = 2 /\
              r <> spec_required_staff default_settings 25
  | Err _ _ => False
  end.
Proof. vm_compute. split; [reflexivity|split; [reflexivity|discriminate]]. Qed.

(** C4 (amended): when the cache lookup of the function finds an entry
    for the date and hour (in the first cached week holding the date, under
    a non-empty week key) whose confidence is at or above the threshold, and
    [demand_per_staff] is not zero, the result is
    [min(max(min_staff_per_hour, int(demand / demand_per_staff)),
    max_staff_per_hour)]: the ratio is truncated toward zero, not rounded. *)
Theorem demand_to_staff_with_forecast_truncates : forall target_date hour settings s e,
  forecast_hour_data (forecast_cache s) target_date hour = Some e ->
  Qle_bool (confidence_threshold (apply_settings settings)) (f_confidence e) = true ->
  ~ (demand_per_staff (apply_settings settings) == 0)%Q ->
  demand_to_staff_with_forecast target_date hour settings s =
  Ok (Z.min (Z.max (conv_min_staff (apply_settings settings))
                   (py_int (f_demand e / demand_per_staff (apply_settings settings))))
            (conv_max_staff (apply_settings settings))) s.
Proof.
  intros target_date hour settings s e Hfound Hconf Hdps.
  unfold demand_to_staff_with_forecast, bind, get. rewrite Hfound, Hconf.
  destruct (Qeq_bool (demand_per_staff (apply_settings settings)) 0) eqn:E.
  - apply Qeq_bool_iff in E. contradiction.
  - reflexivity.
Qed.

Lemma demand_to_staff_with_forecast_truncates_witness :
  (forecast_hour_data (forecast_cache gen_with_forecast) sample_date 10 = Some (mkFentry 25 (9 # 10)) /\
   Qle_bool (confidence_threshold (apply_settings None)) (f_confidence (mkFentry 25 (9 # 10))) = true /\
   ~ (demand_per_staff (apply_settings None) == 0)%Q) /\
  demand_to_staff_with_forecast sample_date 10 None gen_with_forecast =
  Ok (Z.min (Z.max (conv_min_staff (apply_settings None))
                   (py_int (f_demand (mkFentry 25 (9 # 10)) / demand_per_staff (apply_settings None))))
            (conv_max_staff (apply_settings None))) gen_with_forecast.
Proof.
  assert (Hd : ~ (demand_per_staff (apply_settings None) == 0)%Q) by (vm_compute; discriminate).
  split; [split; [reflexivity|split; [reflexivity|exact Hd]]|].
  apply demand_to_staff_with_forecast_truncates; [reflexivity|reflexivity|exact Hd].
Defined.

(** C10: the merger skips every entry whose hour list is empty or whose
    employee id is not in the employee list: running it on the whole map
    or on the map without those entries gives the same shifts, the same
    alerts, the same running cost and the same outcome. *)
Theorem merge_skips_unknown_and_empty : forall asg emps s,
  merge_hours_to_shifts asg emps s =
  merge_hours_to_shifts (filter (keep_entry emps) asg) emps s.
Proof.
  intros asg emps. unfold merge_hours_to_shifts. generalize (@nil shift).
  induction asg as [|[eid hours] asg IH]; intros acc s; [reflexivity|].
  destruct (keep_entry emps (eid, hours)) eqn:K; cbn [filter]; rewrite K; cbn [mfold];
    unfold bind.
  - destruct (merge_entry emps acc (eid, hours) s); [apply IH|reflexivity].
  - assert (Hskip : merge_entry emps acc (eid, hours) s = Ok acc s).
    { unfold keep_entry in K. simpl in K. unfold merge_entry.
      destruct hours; [reflexivity|].
      destruct (employee_lookup emps eid); [discriminate|reflexivity]. }
    rewrite Hskip. apply IH.
Qed.

Lemma sort_pair : forall a b, a < b -> py_sort_ints [a; b] = [a; b].
Proof.
  intros a b Hab. unfold py_sort_ints. simpl.
  now replace (b <? a) with false by (symmetry; apply Z.ltb_ge; lia).
Qed.

Lemma day_ranges_pair : forall a b, a < b -> b <= a + 4 ->
  day_ranges [a; b] = [block_hours (a, b)].
Proof.
  intros a b Hab Hb. unfold day_ranges. rewrite !sort_pair by exact Hab.
  assert (Hs : Sorted Z.le [a; b]) by (repeat constructor; lia).
  destruct (continuous_ranges_blocks _ Hs) as [-> _].
  unfold gap_tolerant_blocks. simpl.
  now replace (b <=? a + 4) with true by (symmetry; apply Z.leb_le; lia).
Qed.

(** C8 (as stated, refuted): the merger has no strict-contiguity mode;
    hours 9 and 11 of one day, which strict contiguity would keep apart,
    always become one shift from 09:00 to 12:00 (hour 10 included). *)
Lemma merge_no_strict_mode_counterexample :
  match merge_hours_to_shifts [("c", [(0, 9); (0, 11)])] [emp_c] sample_gen with
  | Ok shs _ => length shs = 1%nat /\ map start_time shs = [time_of 9 0] /\
                map end_time shs = [time_of 12 0]
  | Err _ _ => False
  end.
Proof. vm_compute. split; [reflexivity|split; reflexivity]. Qed.

(** C8 (amended): [merge_hours_to_shifts] has the gap-tolerant policy
    only: two hours [a < b] of one day with [b <= a + 4], even when
    [b <> a + 1], always become a single shift from [a] to [b + 1], every
    hour in between being worked: the break and the cost are those of
    [b - a + 1] worked hours at the employee's rate, not of the two
    assigned hours. *)
Theorem merge_bridges_short_gaps : forall emp day a b s,
  0 <= a -> a < b -> b <= a + 4 -> b <= 23 ->
  exists sh s',
    merge_hours_to_shifts [(emp_id emp, [(day, a); (day, b)])] [emp] s = Ok [sh] s' /\
    start_time sh = time_of a 0 /\
    end_time sh = time_of ((b + 1) mod 24) 0 /\
    break_minutes sh = shift_break (b - a + 1) /\
    shift_hourly_rate sh = hourly_rate emp /\
    total_cost sh = shift_cost (b - a + 1) (hourly_rate emp).
Proof.
  intros emp day a b s Ha Hab Hb Hb23.
  assert (Hlook : employee_lookup [emp] (emp_id emp) = Some emp)
    by (unfold employee_lookup; simpl; now rewrite String.eqb_refl).
  assert (Hgroup : group_by_day [(day, a); (day, b)] = [(day, [a; b])])
    by (unfold group_by_day; simpl; now rewrite Z.eqb_refl).
  assert (Hva : time_valid a = true)
    by (unfold time_valid; apply andb_true_intro; split; apply Z.leb_le; lia).
  assert (Hvb : time_valid (end_hour_time (b + 1)) = true).
  { unfold time_valid, end_hour_time.
    destruct (24 <=? b + 1) eqn:E; [apply Z.leb_le in E|apply Z.leb_gt in E];
      apply andb_true_intro; split; apply Z.leb_le; lia. }
  unfold merge_hours_to_shifts. cbn [mfold]. unfold bind at 1.
  unfold merge_entry. rewrite Hlook, Hgroup. cbn [mfold]. unfold bind at 1.
  unfold merge_day. rewrite sort_pair by exact Hab.
  rewrite day_ranges_pair by assumption. cbn [mfold].
  replace (1 <=? length (block_hours (a, b)))%nat with true
    by (symmetry; apply Nat.leb_le; pose proof (length_block_hours a b); lia).
  unfold bind. rewrite create_shift_eq.
  rewrite hd_block_hours, last_block_hours by lia. rewrite Hva, Hvb.
  cbn -[shift_break shift_cost end_hour_time].
  eexists; eexists; split; [reflexivity|].
  split; [reflexivity|split].
  - simpl. f_equal. apply end_hour_time_mod; [lia|exact Hvb].
  - split; [simpl; f_equal; rewrite length_block_hours; lia|].
    split; [reflexivity|].
    simpl. f_equal. rewrite length_block_hours; lia.
Qed.

Lemma merge_bridges_short_gaps_witness :
  (0 <= 9 /\ 9 < 11 /\ 11 <= 9 + 4 /\ 11 <= 23) /\
  exists sh s',
    merge_hours_to_shifts [(emp_id emp_c, [(0, 9); (0, 11)])] [emp_c] sample_gen = Ok [sh] s' /\
    start_time sh = time_of 9 0 /\
    end_time sh = time_of ((11 + 1) mod 24) 0 /\
    break_minutes sh = shift_break (11 - 9 + 1) /\
    shift_hourly_rate sh = hourly_rate emp_c /\
    total_cost sh = shift_cost (11 - 9 + 1) (hourly_rate emp_c).
Proof.
  split; [lia|]. apply merge_bridges_short_gaps; lia.
Defined.

(** ** Append-only alerts *)

Section AppendOnly.

Lemma ao_ret {A} (a : A) : appends_only (ret a).
  Proof. intros s. exists []. now rewrite app_nil_r. Qed.

Lemma ao_raise {A} e : appends_only (@raise A e).
  Proof. intros s. exists []. now rewrite app_nil_r. Qed.

Lemma ao_get : appends_only get.
  Proof. intros s. exists []. now rewrite app_nil_r. Qed.

Lemma ao_modify_keep (f : gen -> gen) :
    (forall s, alerts (f s) = alerts s) -> appends_only (modify f).
  Proof. intros Hf s. exists []. simpl. now rewrite Hf, app_nil_r. Qed.

Lemma ao_append_alert a : appends_only (append_alert a).
  Proof. intros s. now exists [a]. Qed.

Lemma ao_uuid4 : appends_only uuid4.
  Proof. intros s. exists []. simpl. now rewrite app_nil_r. Qed.

Lemma ao_bind {A B} (m : M A) (k : A -> M B) :
    appends_only m -> (forall a, appends_only (k a)) -> appends_only (bind m k).
  Proof.
    intros Hm Hk s. unfold bind. destruct (Hm s) as [l1 H1].
    destruct (m s) as [a s1|e s1]; simpl in *.
    - destruct (Hk a s1) as [l2 H2]. exists (l1 ++ l2).
      now rewrite H2, H1, app_assoc.
    - now exists l1.
  Qed.

Lemma ao_mfold {A B} (f : A -> B -> M A) :
    (forall a x, appends_only (f a x)) -> forall l a, appends_only (mfold f l a).
  Proof.
    intros Hf l. induction l as [|x xs IH]; intros a; simpl.
    - apply ao_ret.
    - apply ao_bind; [apply Hf|intros; apply IH].
  Qed.

End AppendOnly.

Ltac ao_step :=
  match goal with
  | |- appends_only (bind _ _) => apply ao_bind; [|intro]
  | |- appends_only (ret _) => apply ao_ret
  | |- appends_only (raise _) => apply ao_raise
  | |- appends_only get => apply ao_get
  | |- appends_only (append_alert _) => apply ao_append_alert
  | |- appends_only uuid4 => apply ao_uuid4
  | |- appends_only (modify _) => apply ao_modify_keep; reflexivity
  | |- appends_only (mfold _ _ _) => apply ao_mfold; intros
  | |- appends_only (py_time _ _) => unfold py_time
  | |- appends_only (if ?b then _ else _) => destruct b
  | |- appends_only (match ?x with _ => _ end) => destruct x
  | |- appends_only (let _ := _ in _) => cbv zeta
  end.

Ltac ao_auto := repeat ao_step.

Lemma ao_demand_to_staff : forall hour day fd, appends_only (demand_to_staff hour day fd).
Proof. intros. unfold demand_to_staff. ao_auto. Qed.

Lemma ao_pick : forall emps slots req day hour,
  appends_only (pick_employees_greedy emps slots req day hour).
Proof. intros. unfold pick_employees_greedy, check_employee. ao_auto. Qed.

Lemma ao_create_shift : forall eid day start_hour hours emp,
  appends_only (create_shift eid day start_hour hours emp).
Proof.
  intros eid day start_hour hours emp s. rewrite create_shift_eq.
  destruct (_ && _); simpl; [|exists []; now rewrite app_nil_r].
  destruct (qltb _ _); simpl; [eexists; reflexivity|exists []; now rewrite app_nil_r].
Qed.

Lemma ao_merge : forall asg emps, appends_only (merge_hours_to_shifts asg emps).
Proof.
  intros. unfold merge_hours_to_shifts, merge_entry, merge_day.
  ao_auto; apply ao_create_shift.
Qed.

Lemma ao_assign : forall emps av fd asg,
  appends_only (mfold (assign_slot emps av fd) week_slots asg).
Proof.
  intros. unfold assign_slot, assignment_append.
  ao_auto; try apply ao_demand_to_staff; apply ao_pick.
Qed.

Lemma ao_load_forecast : forall bid week q, appends_only (load_forecast bid week q).
Proof. intros. unfold load_forecast. ao_auto. Qed.

Lemma ao_demand_to_staff_with_forecast : forall d h st,
  appends_only (demand_to_staff_with_forecast d h st).
Proof. intros. unfold demand_to_staff_with_forecast. ao_auto; apply ao_demand_to_staff. Qed.

Lemma generate_schedule_reset_alerts : forall emps av fd s,
  generate_schedule emps av fd s = generate_schedule emps av fd (set_alerts [] s).
Proof. intros. unfold generate_schedule, bind, modify. reflexivity. Qed.

Lemma generate_schedule_returns_state_alerts : forall emps av fd s sh al s',
  generate_schedule emps av fd s = Ok (sh, al) s' -> al = alerts s'.
Proof.
  intros emps av fd s sh al s'. unfold generate_schedule, bind at 1, modify.
  unfold bind at 1.
  destruct (mfold _ _ _ _) as [asg s1|e s1]; [|discriminate].
  unfold bind. destruct (merge_hours_to_shifts asg emps s1) as [shifts s2|e s2];
    [|discriminate].
  simpl. intros H. now inversion H.
Qed.

(** C9 (counterexample): an alert appended by [load_forecast] on a generator
    (here [missing_forecast], for a week with no forecast rows) is present in
    the generator's alert list, yet the following [generate_schedule] on the
    same generator returns an alert list without it: the run starts by
    resetting [self.alerts = []]. *)
Lemma generate_drops_forecast_alerts_counterexample :
  match load_forecast "biz" "2025-W01" (inr []) sample_gen with
  | Ok _ s1 =>
      existsb (fun a => String.eqb (alert_type a) "missing_forecast") (alerts s1) = true /\
      match generate_schedule [] [] None s1 with
      | Ok (_, al) _ =>
          existsb (fun a => String.eqb (alert_type a) "missing_forecast") al = false
      | Err _ _ => False
      end
  | Err _ _ => False
  end.
Proof. vm_compute. split; reflexivity. Qed.

(** C9 (amended): no operation removes an alert: [load_forecast],
    [demand_to_staff_with_forecast], [pick_employees_greedy], the assignment
    loop of [generate_schedule] and [merge_hours_to_shifts] only append to
    the alert list. [generate_schedule] however starts from an empty alert
    list whatever the generator held before (its result does not depend on
    the earlier alerts), and the list it returns is the generator's alert
    list at the end of the run. *)
Theorem alerts_append_only_within_run :
  (forall business_id week q, appends_only (load_forecast business_id week q)) /\
  (forall target_date hour st,
      appends_only (demand_to_staff_with_forecast target_date hour st)) /\
  (forall emps slots req day hour,
      appends_only (pick_employees_greedy emps slots req day hour)) /\
  (forall emps av fd asg, appends_only (mfold (assign_slot emps av fd) week_slots asg)) /\
  (forall asg emps, appends_only (merge_hours_to_shifts asg emps)) /\
  (forall emps av fd s,
      generate_schedule emps av fd s = generate_schedule emps av fd (set_alerts [] s)) /\
  (forall emps av fd s sh al s',
      generate_schedule emps av fd s = Ok (sh, al) s' -> al = alerts s').
Proof.
  split; [apply ao_load_forecast|].
  split; [apply ao_demand_to_staff_with_forecast|].
  split; [apply ao_pick|].
  split; [apply ao_assign|].
  split; [apply ao_merge|].
  split; [apply generate_schedule_reset_alerts|].
  apply generate_schedule_returns_state_alerts.
Qed.

(** ** Runs from states that agree up to identifiers *)

Section Simulation.

Lemma sim_ret {A} (RA : A -> A -> Prop) a1 a2 : RA a1 a2 -> sim RA (ret a1) (ret a2).
  Proof. intros H s1 s2 HR. now split. Qed.

Lemma sim_raise {A} (RA : A -> A -> Prop) e : sim RA (raise e) (raise e).
  Proof. intros s1 s2 HR. now split. Qed.

Lemma sim_get : sim same_run_state get get.
  Proof. intros s1 s2 HR. now split. Qed.

Lemma sim_modify (f : gen -> gen) :
    (forall s1 s2, same_run_state s1 s2 -> same_run_state (f s1) (f s2)) ->
    sim eq (modify f) (modify f).
  Proof. intros Hf s1 s2 HR. split; [reflexivity|now apply Hf]. Qed.

Lemma sim_append_alert a : sim eq (append_alert a) (append_alert a).
  Proof.
    apply sim_modify. intros s1 s2 (Hb & Hm & Hc & Ha & Ht).
    unfold same_run_state; simpl. now rewrite Ha.
  Qed.

Lemma sim_bind {A B} (RA : A -> A -> Prop) (RB : B -> B -> Prop)
      (m1 m2 : M A) (k1 k2 : A -> M B) :
    sim RA m1 m2 -> (forall a1 a2, RA a1 a2 -> sim RB (k1 a1) (k2 a2)) ->
    sim RB (bind m1 k1) (bind m2 k2).
  Proof.
    intros Hm Hk s1 s2 HR. unfold bind. specialize (Hm s1 s2 HR).
    destruct (m1 s1) as [a1 t1|e1 t1], (m2 s2) as [a2 t2|e2 t2];
      simpl in Hm; try contradiction.
    - destruct Hm as [Ha Ht]. now apply Hk.
    - exact Hm.
  Qed.

Lemma sim_bind_eq {A B} (RB : B -> B -> Prop) (m1 m2 : M A) (k1 k2 : A -> M B) :
    sim eq m1 m2 -> (forall a, sim RB (k1 a) (k2 a)) -> sim RB (bind m1 k1) (bind m2 k2).
  Proof. intros Hm Hk. apply (sim_bind eq); [exact Hm|intros a1 a2 <-; apply Hk]. Qed.

Lemma sim_mfold {A B} (RA : A -> A -> Prop) (f1 f2 : A -> B -> M A) :
    (forall a1 a2 x, RA a1 a2 -> sim RA (f1 a1 x) (f2 a2 x)) ->
    forall l a1 a2, RA a1 a2 -> sim RA (mfold f1 l a1) (mfold f2 l a2).
  Proof.
    intros Hf l. induction l as [|x xs IH]; intros a1 a2 Ha; simpl.
    - now apply sim_ret.
    - apply (sim_bind RA); [now apply Hf|intros; now apply IH].
  Qed.

Lemma sim_mfold_eq {A B} (f : A -> B -> M A) :
    (forall a x, sim eq (f a x) (f a x)) -> forall l a, sim eq (mfold f l a) (mfold f l a).
  Proof. intros Hf l a. apply sim_mfold; [intros a1 a2 x <-; apply Hf|reflexivity]. Qed.

End Simulation.

Ltac sim_step :=
  match goal with
  | |- sim _ (bind _ _) (bind _ _) => apply sim_bind_eq; [|intro]
  | |- sim eq (ret _) (ret _) => apply sim_ret; reflexivity
  | |- sim _ (raise _) (raise _) => apply sim_raise
  | |- sim _ (append_alert _) (append_alert _) => apply sim_append_alert
  | |- sim eq (mfold _ _ _) (mfold _ _ _) => apply sim_mfold_eq; intros
  | |- sim _ (py_time _ _) (py_time _ _) => unfold py_time
  | |- sim _ (if ?b then _ else _) (if ?b then _ else _) => destruct b
  | |- sim _ (match ?x with _ => _ end) _ => destruct x
  | |- sim _ (let _ := _ in _) _ => cbv zeta
  end.

Ltac sim_auto := repeat sim_step.

Lemma sim_demand_to_staff : forall hour day fd,
  sim eq (demand_to_staff hour day fd) (demand_to_staff hour day fd).
Proof.
  intros hour day fd s1 s2 HR. pose proof HR as (_ & Hm & _).
  unfold demand_to_staff, bind, get. cbv zeta. rewrite Hm.
  repeat match goal with |- context [match ?x with _ => _ end] => destruct x end;
    now split.
Qed.

Lemma sim_pick : forall emps slots req day hour,
  sim eq (pick_employees_greedy emps slots req day hour)
         (pick_employees_greedy emps slots req day hour).
Proof. intros. unfold pick_employees_greedy, check_employee. sim_auto. Qed.

Lemma sim_create_shift : forall eid day start_hour hours emp,
  sim (fun a b => erase_id a = erase_id b)
      (create_shift eid day start_hour hours emp) (create_shift eid day start_hour hours emp).
Proof.
  intros eid day start_hour hours emp s1 s2 HR. rewrite !create_shift_eq.
  pose proof HR as (Hb & Hm & Hc & Ha & Ht).
  destruct (_ && _); simpl; [|now split].
  rewrite Hb, Hc, Ha, Ht.
  destruct (qltb _ _); simpl; (split; [reflexivity|]);
    unfold same_run_state; simpl; repeat split; assumption.
Qed.

Lemma sim_merge : forall asg emps,
  sim shifts_rel (merge_hours_to_shifts asg emps) (merge_hours_to_shifts asg emps).
Proof.
  intros asg emps. unfold merge_hours_to_shifts.
  apply sim_mfold; [|reflexivity].
  intros acc1 acc2 [eid hours] Hacc. unfold merge_entry.
  destruct hours as [|h hs]; [now apply sim_ret|].
  destruct (employee_lookup emps eid) as [emp|]; [|now apply sim_ret].
  apply sim_mfold; [|exact Hacc].
  intros a1 a2 [day day_hours] Ha. unfold merge_day.
  destruct (py_sort_ints day_hours); [now apply sim_ret|].
  apply sim_mfold; [|exact Ha].
  intros b1 b2 hours_range Hb.
  destruct (1 <=? length hours_range)%nat; [|now apply sim_ret].
  apply (sim_bind (fun a b => erase_id a = erase_id b)); [apply sim_create_shift|].
  intros sh1 sh2 Hsh. apply sim_ret. unfold shifts_rel in *.
  rewrite !map_app. simpl. now rewrite Hb, Hsh.
Qed.

Lemma sim_assign : forall emps av fd asg,
  sim eq (mfold (assign_slot emps av fd) week_slots asg)
         (mfold (assign_slot emps av fd) week_slots asg).
Proof.
  intros. apply sim_mfold_eq. intros a [day hour]. unfold assign_slot.
  apply sim_bind_eq; [apply sim_demand_to_staff|intros r].
  destruct (r =? 0); [sim_auto|].
  apply sim_bind_eq; [apply sim_pick|intros sel].
  unfold assignment_append. sim_auto.
Qed.

Lemma sim_generate : forall emps av fd,
  sim (fun p1 p2 => shifts_rel (fst p1) (fst p2) /\ snd p1 = snd p2)
      (generate_schedule emps av fd) (generate_schedule emps av fd).
Proof.
  intros. unfold generate_schedule.
  apply sim_bind_eq.
  { apply sim_modify. intros s1 s2 (Hb & Hm & Hc & Ha & Ht).
    unfold same_run_state; simpl; repeat split; assumption. }
  intros _. apply sim_bind_eq; [apply sim_assign|intros asg].
  apply (sim_bind shifts_rel); [apply sim_merge|intros sh1 sh2 Hsh].
  apply (sim_bind same_run_state); [apply sim_get|intros t1 t2 Ht].
  apply sim_ret. split; [exact Hsh|]. simpl. now destruct Ht as (_ & _ & _ & Ha & _).
Qed.

(** C7 (counterexample): two runs of [generate_schedule] on one generator,
    with one employee available on day 1 from 8:00 to 17:00, no forecast and
    the same date, return different shift lists: the shift's [id] is a fresh
    [uuid4()] on each run. *)
Lemma generate_twice_ids_differ :
  match sample_run with
  | Ok (sh1, _) s1 =>
      match generate_schedule [emp_a] [slot_day1 "a"] None s1 with
      | Ok (sh2, _) _ => map shift_id sh1 = [0%N] /\ map shift_id sh2 = [1%N] /\ sh1 <> sh2
      | Err _ _ => False
      end
  | Err _ _ => False
  end.
Proof. vm_compute. split; [reflexivity|split; [reflexivity|discriminate]]. Qed.

(** C7 (amended): two runs of [generate_schedule] with the same employees,
    availability and forecast data, from generators with the same weekly
    budget, minimum staff and current date (whatever their running cost,
    alerts, forecast cache or earlier identifiers), either both fail with the
    same exception or both return the same alert list and shift lists that
    agree on every field but the uuid [id]. *)
Theorem generate_schedule_deterministic_up_to_ids :
  forall emps av fd s1 s2,
    weekly_budget s1 = weekly_budget s2 ->
    min_staff_per_hour s1 = min_staff_per_hour s2 ->
    today s1 = today s2 ->
    match generate_schedule emps av fd s1, generate_schedule emps av fd s2 with
    | Ok (sh1, al1) _, Ok (sh2, al2) _ => map erase_id sh1 = map erase_id sh2 /\ al1 = al2
    | Err e1 _, Err e2 _ => e1 = e2
    | _, _ => False
    end.
Proof.
  intros emps av fd s1 s2 Hb Hm Ht.
  assert (Hreset : forall s, generate_schedule emps av fd s =
                             generate_schedule emps av fd (set_alerts [] (set_cost 0%Q s))).
  { intros s. unfold generate_schedule, bind, modify. reflexivity. }
  rewrite (Hreset s1), (Hreset s2).
  assert (HR : same_run_state (set_alerts [] (set_cost 0%Q s1))
                              (set_alerts [] (set_cost 0%Q s2))).
  { unfold same_run_state; simpl; repeat split; assumption. }
  pose proof (sim_generate emps av fd _ _ HR) as H.
  destruct (generate_schedule emps av fd (set_alerts [] (set_cost 0%Q s1)))
    as [[sh1 al1] t1|e1 t1],
           (generate_schedule emps av fd (set_alerts [] (set_cost 0%Q s2))) as [[sh2 al2] t2|e2 t2];
    simpl in H; try contradiction.
  - destruct H as [[Hsh Hal] _]. split; assumption.
  - now destruct H.
Qed.

Lemma generate_schedule_deterministic_up_to_ids_witness :
  weekly_budget sample_gen = weekly_budget (state_of sample_run) /\
  min_staff_per_hour sample_gen = min_staff_per_hour (state_of sample_run) /\
  today sample_gen = today (state_of sample_run) /\
  match generate_schedule [emp_a] [slot_day1 "a"] None sample_gen,
        generate_schedule [emp_a] [slot_day1 "a"] None (state_of sample_run) with
  | Ok (sh1, al1) _, Ok (sh2, al2) _ => map erase_id sh1 = map erase_id sh2 /\ al1 = al2
  | Err e1 _, Err e2 _ => e1 = e2
  | _, _ => False
  end.
Proof.
  split; [vm_compute; reflexivity|].
  split; [vm_compute; reflexivity|].
  split; [vm_compute; reflexivity|].
  apply generate_schedule_deterministic_up_to_ids; vm_compute; reflexivity.
Defined.

(** * Further properties *)

(** ** Loops that succeed *)

Lemma mfold_ok {A B} (I : A -> gen -> Prop) (f : A -> B -> M A) : forall l,
  (forall a x s, In x l -> I a s -> exists a' s', f a x s = Ok a' s' /\ I a' s') ->
  forall a s, I a s -> exists a' s', mfold f l a s = Ok a' s' /\ I a' s'.
Proof.
  induction l as [|x xs IH]; intros Hf a s Ha; simpl.
  - now exists a, s.
  - destruct (Hf a x s (or_introl eq_refl) Ha) as (a1 & s1 & E1 & H1).
    unfold bind. rewrite E1.
    apply IH; [intros; apply Hf; [right|]; assumption|exact H1].
Qed.

(** ** Blocks start and end on assigned hours *)

Lemma gap_fold_mem : forall (l rest : list Z) bs a b,
  incl rest l -> Forall (fun ab => In (fst ab) l /\ In (snd ab) l) bs ->
  In a l -> In b l ->
  Forall (fun ab => In (fst ab) l /\ In (snd ab) l) (fst (fold_left gap_step rest (bs, (a, b)))) /\
  In (fst (snd (fold_left gap_step rest (bs, (a, b))))) l /\
  In (snd (snd (fold_left gap_step rest (bs, (a, b))))) l.
Proof.
  intros l rest. induction rest as [|h rest IH]; intros bs a b Hincl Hbs Ha Hb; simpl.
  - auto.
  - assert (Hh : In h l) by (apply Hincl; left; reflexivity).
    assert (Hr : incl rest l) by (intros y Hy; apply Hincl; right; exact Hy).
    destruct (h <=? b + 4).
    + apply IH; auto.
    + apply IH; auto. apply Forall_app; split; [exact Hbs|constructor; simpl; auto].
Qed.

Lemma gap_blocks_mem : forall l,
  Forall (fun ab => In (fst ab) l /\ In (snd ab) l) (gap_tolerant_blocks l).
Proof.
  intros [|h0 rest]; simpl; [constructor|].
  destruct (gap_fold_mem (h0 :: rest) rest [] h0 h0) as (H1 & H2 & H3).
  - intros y Hy; right; exact Hy.
  - constructor.
  - left; reflexivity.
  - left; reflexivity.
  - destruct (fold_left gap_step rest ([], (h0, h0))) as [bs cur] eqn:E; simpl in *.
    apply Forall_app; split; [exact H1|constructor; [split; assumption|constructor]].
Qed.

Lemma in_py_sort_ints : forall l x, In x (py_sort_ints l) <-> In x l.
Proof.
  intros l x. unfold py_sort_ints. split; apply Permutation_in;
    [|symmetry]; apply sort_by_perm.
Qed.

Lemma in_day_ranges_mem : forall day_hours hr, In hr (day_ranges day_hours) ->
  exists a b, a <= b /\ hr = block_hours (a, b) /\ In a day_hours /\ In b day_hours.
Proof.
  intros day_hours hr Hin. unfold day_ranges in Hin.
  destruct (continuous_ranges_blocks _ (py_sort_ints_sorted (py_sort_ints day_hours)))
    as [Heq Hok].
  rewrite Heq in Hin. apply in_map_iff in Hin as [[a b] [<- Hab]].
  pose proof (gap_blocks_mem (py_sort_ints (py_sort_ints day_hours))) as Hmem.
  rewrite Forall_forall in Hok, Hmem. destruct (Hmem _ Hab) as [Ha Hb]; simpl in Ha, Hb.
  rewrite !in_py_sort_ints in Ha, Hb.
  exists a, b. repeat split; auto. exact (Hok _ Hab).
Qed.

(** ** Hours grouped by day come from the assignments *)

Lemma add_hour_mem : forall d h acc d' hs x,
  In (d', hs) (add_hour d h acc) -> In x hs ->
  (d', x) = (d, h) \/ exists hs0, In (d', hs0) acc /\ In x hs0.
Proof.
  intros d h acc. induction acc as [|[d0 hs0] rest IH]; intros d' hs x Hin Hx; simpl in Hin.
  - destruct Hin as [E|[]]. inversion E; subst. destruct Hx as [<-|[]]. now left.
  - destruct (Z.eqb d0 d) eqn:Ed.
    + destruct Hin as [E|Hin].
      * inversion E; subst. apply in_app_or in Hx as [Hx|[<-|[]]].
        -- right. exists hs0. split; [left; reflexivity|exact Hx].
        -- left. apply Z.eqb_eq in Ed. now subst.
      * right. exists hs. split; [right; exact Hin|exact Hx].
    + destruct Hin as [E|Hin].
      * inversion E; subst. right. exists hs. split; [left; reflexivity|exact Hx].
      * destruct (IH _ _ _ Hin Hx) as [E|(hs1 & H1 & H2)]; [now left|].
        right. exists hs1. split; [right; exact H1|exact H2].
Qed.

Lemma group_by_day_mem : forall hours d hs x,
  In (d, hs) (group_by_day hours) -> In x hs -> In (d, x) hours.
Proof.
  intros hours. unfold group_by_day.
  assert (G : forall rest acc,
    (forall d hs x, In (d, hs) acc -> In x hs -> In (d, x) hours) -> incl rest hours ->
    forall d hs x, In (d, hs) (fold_left (fun acc dh => add_hour (fst dh) (snd dh) acc) rest acc) ->
    In x hs -> In (d, x) hours).
  { induction rest as [|[d0 h0] rest IH]; intros acc Hacc Hincl; simpl; [exact Hacc|].
    apply IH; [|intros y Hy; apply Hincl; right; exact Hy].
    intros d hs x Hin Hx. destruct (add_hour_mem _ _ _ _ _ _ Hin Hx) as [E|(hs0 & H1 & H2)].
    - rewrite E. apply Hincl. left; reflexivity.
    - exact (Hacc _ _ _ H1 H2). }
  apply G; [intros d hs x []|intros y Hy; exact Hy].
Qed.

(** ** Shifts built by the merger *)

Lemma end_hour_time_valid : forall b, 0 <= b <= 23 ->
  time_valid (end_hour_time (b + 1)) = true /\ end_hour_time (b + 1) = (b + 1) mod 24.
Proof.
  intros b Hb.
  assert (Hv : time_valid (end_hour_time (b + 1)) = true).
  { unfold time_valid, end_hour_time.
    destruct (24 <=? b + 1) eqn:E; [apply Z.leb_le in E|apply Z.leb_gt in E];
      apply andb_true_intro; split; apply Z.leb_le; lia. }
  split; [exact Hv|apply end_hour_time_mod; [lia|exact Hv]].
Qed.

Lemma create_shift_block : forall eid day a b emp s, 0 <= a -> a <= b -> b <= 23 ->
  exists s',
    create_shift eid day (hd 0 (block_hours (a, b))) (block_hours (a, b)) emp s =
      Ok (mkShift (uuid_next s) eid (get_date_for_day (today s) day) (time_of a 0)
                  (time_of ((b + 1) mod 24) 0) (shift_break (b - a + 1)) (hourly_rate emp)
                  (shift_cost (b - a + 1) (hourly_rate emp))) s' /\
    current_cost s' = (current_cost s + shift_cost (b - a + 1) (hourly_rate emp))%Q /\
    today s' = today s /\ weekly_budget s' = weekly_budget s /\
    min_staff_per_hour s' = min_staff_per_hour s /\
    (alerts s' = alerts s \/
     alerts s' = alerts s ++ [budget_alert (current_cost s) (shift_cost (b - a + 1) (hourly_rate emp))
                                          (weekly_budget s)]).
Proof.
  intros eid day a b emp s Ha Hab Hb.
  rewrite create_shift_eq, hd_block_hours, last_block_hours, length_block_hours by exact Hab.
  destruct (end_hour_time_valid b ltac:(lia)) as [Hv He].
  assert (Ha' : time_valid a = true)
    by (unfold time_valid; apply andb_true_intro; split; apply Z.leb_le; lia).
  rewrite Ha', Hv, He. simpl.
  destruct (qltb _ _); eexists; (split; [reflexivity|]); simpl; repeat split; auto.
Qed.

Lemma cost_sum_app : forall l x c0,
  cost_sum (l ++ [x]) c0 = (cost_sum l c0 + total_cost x)%Q.
Proof. intros. unfold cost_sum. now rewrite fold_left_app. Qed.

(** What [merge_hours_to_shifts] does when every assigned hour is an hour
    of the day: it succeeds, every shift comes from the assignments, the
    running total grows by the shifts' costs in order, and it appends
    [budget_exceeded] alerts only. *)
Lemma merge_run : forall asg emps s,
  (forall eid hours d h, In (eid, hours) asg -> In (d, h) hours -> 0 <= h <= 23) ->
  exists shs s',
    merge_hours_to_shifts asg emps s = Ok shs s' /\
    current_cost s' = cost_sum shs (current_cost s) /\
    today s' = today s /\ weekly_budget s' = weekly_budget s /\
    min_staff_per_hour s' = min_staff_per_hour s /\
    (exists l, alerts s' = alerts s ++ l /\ Forall run_alert l) /\
    Forall (shift_from asg emps (today s)) shs.
Proof.
  intros asg emps s Hvalid.
  set (I := fun (acc : list shift) (t : gen) =>
    current_cost t = cost_sum acc (current_cost s) /\
    today t = today s /\ weekly_budget t = weekly_budget s /\
    min_staff_per_hour t = min_staff_per_hour s /\
    (exists l, alerts t = alerts s ++ l /\ Forall run_alert l) /\
    Forall (shift_from asg emps (today s)) acc).
  assert (H0 : I [] s).
  { repeat split; try reflexivity; [exists []; split; [now rewrite app_nil_r|constructor]|constructor]. }
  destruct (mfold_ok I (merge_entry emps) asg) with (a := @nil shift) (s := s)
    as (shs & s' & E & Hc & Ht & Hb & Hm & Hal & Hsh); [|exact H0|].
  2:{ exists shs, s'. unfold merge_hours_to_shifts. rewrite E. repeat split; assumption. }
  intros acc [eid hours] t Hin HI. unfold merge_entry.
  destruct hours as [|h0 hs]; [exists acc, t; split; [reflexivity|exact HI]|].
  destruct (employee_lookup emps eid) as [emp|] eqn:Elook;
    [|exists acc, t; split; [reflexivity|exact HI]].
  apply mfold_ok; [|exact HI].
  intros acc1 [day day_hours] t1 Hday HI1. unfold merge_day.
  destruct (py_sort_ints day_hours); [exists acc1, t1; split; [reflexivity|exact HI1]|].
  apply mfold_ok; [|exact HI1].
  intros acc2 hr t2 Hhr (Hc2 & Ht2 & Hb2 & Hm2 & (l2 & Hl2 & Hk2) & Hs2).
  destruct (in_day_ranges_mem _ _ Hhr) as (a & b & Hab & -> & Ha & Hb).
  pose proof (group_by_day_mem _ _ _ _ Hday Ha) as Ha'.
  pose proof (group_by_day_mem _ _ _ _ Hday Hb) as Hb'.
  pose proof (Hvalid _ _ _ _ Hin Ha') as Hra. pose proof (Hvalid _ _ _ _ Hin Hb') as Hrb.
  replace (1 <=? length (block_hours (a, b)))%nat with true
    by (symmetry; apply Nat.leb_le; pose proof (length_block_hours a b Hab); lia).
  destruct (create_shift_block eid day a b emp t2 ltac:(lia) Hab ltac:(lia))
    as (t3 & E3 & Hc3 & Ht3 & Hb3 & Hm3 & Hal3).
  unfold bind. rewrite E3. eexists _, t3. split; [reflexivity|].
  repeat split.
  - rewrite Hc3, cost_sum_app, Hc2. reflexivity.
  - congruence.
  - congruence.
  - congruence.
  - destruct Hal3 as [Hal3|Hal3].
    + exists l2. rewrite Hal3. split; assumption.
    + exists (l2 ++ [budget_alert (current_cost t2) (shift_cost (b - a + 1) (hourly_rate emp))
                                   (weekly_budget t2)]).
      rewrite Hal3, Hl2, app_assoc. split; [reflexivity|].
      apply Forall_app; split; [exact Hk2|]. constructor; [|constructor].
      right. do 3 eexists. reflexivity.
  - apply Forall_app; split; [exact Hs2|]. constructor; [|constructor].
    exists eid, (h0 :: hs), emp, day, a, b. simpl. rewrite <- Ht2.
    repeat split; auto.
Qed.

(** ** [demand_to_staff] *)

Lemma peak_hours_eq : peak_hours = [12; 13; 14; 18; 19; 20; 21].
Proof. reflexivity. Qed.

Lemma default_pattern : forall hour ms,
  let r := if existsb (Z.eqb hour) peak_hours then Z.max 2 ms
           else if (6 <=? hour) && (hour <=? 23) then Z.max 1 ms else 0 in
  0 <= r /\ (r = 0 <-> hour < 6 \/ 23 < hour).
Proof.
  intros hour ms r. subst r.
  destruct (existsb (Z.eqb hour) peak_hours) eqn:Ep.
  - apply existsb_exists in Ep as [x [Hx Ex]]. apply Z.eqb_eq in Ex. subst x.
    rewrite peak_hours_eq in Hx. split; [lia|].
    simpl in Hx. split; intros H; [lia|]. exfalso.
    repeat destruct Hx as [Hx|Hx]; subst; lia.
  - destruct ((6 <=? hour) && (hour <=? 23)) eqn:Eb.
    + apply andb_prop in Eb as [E1 E2]. apply Z.leb_le in E1, E2. lia.
    + split; [lia|]. split; [intros _|reflexivity].
      destruct (Z.leb_spec 6 hour), (Z.leb_spec hour 23); simpl in Eb; try discriminate; lia.
Qed.

Lemma demand_to_staff_run : forall hour day fd s,
  exists r, demand_to_staff hour day fd s = Ok r s /\ 0 <= r /\
    (r = 0 <-> forecast_has fd day hour = false /\ (hour < 6 \/ 23 < hour)).
Proof.
  intros hour day fd s.
  assert (Hdef : exists r, (if existsb (Z.eqb hour) peak_hours then ret (Z.max 2 (min_staff_per_hour s))
            else if (6 <=? hour) && (hour <=? 23) then ret (Z.max 1 (min_staff_per_hour s))
            else ret 0) s = Ok r s /\ 0 <= r /\ (r = 0 <-> hour < 6 \/ 23 < hour)).
  { destruct (default_pattern hour (min_staff_per_hour s)) as [H1 H2].
    destruct (existsb (Z.eqb hour) peak_hours), ((6 <=? hour) && (hour <=? 23));
      eexists; (split; [reflexivity|]); auto. }
  unfold demand_to_staff, bind, get.
  destruct fd as [[|kv fd]|]; unfold forecast_has.
  - simpl existsb. destruct Hdef as (r & E & H1 & H2). exists r. repeat split; auto; tauto.
  - destruct (find _ (kv :: fd)) as [p|] eqn:F.
    + exists (Z.max 1 (py_int (snd p / inject_Z 10))). split; [reflexivity|].
      split; [lia|]. split; [lia|]. intros [Hf _].
      apply find_some in F as [Hp Fp].
      assert (Hex : existsb (fun kv => Z.eqb (fst (fst kv)) day && Z.eqb (snd (fst kv)) hour)
                      (kv :: fd) = true) by (apply existsb_exists; eauto).
      congruence.
    + assert (Hex : existsb (fun kv => Z.eqb (fst (fst kv)) day && Z.eqb (snd (fst kv)) hour)
                      (kv :: fd) = false).
      { apply Bool.not_true_iff_false. intros Hex. apply existsb_exists in Hex as [x [Hx Fx]].
        pose proof (find_none _ _ F x Hx). congruence. }
      rewrite Hex. destruct Hdef as (r & E & H1 & H2). exists r. repeat split; auto; tauto.
  - destruct Hdef as (r & E & H1 & H2). exists r. repeat split; auto; tauto.
Qed.

(** ** [pick_employees_greedy] *)

Lemma pick_run : forall emps slots req day hour s, 0 <= hour <= 23 ->
  pick_employees_greedy emps slots req day hour s =
  let sorted := sort_by rate_ltb (map (fun e => (e, hourly_rate e))
                                      (eligible_employees emps slots day hour)) in
  let sc := Z.min req (Z.of_nat (length sorted)) in
  Ok (map fst (py_slice_to sorted sc))
     (if sc <? req then set_alerts (alerts s ++ [insufficient_alert day hour sc req]) s else s).
Proof.
  intros emps slots req day hour s Hh. unfold pick_employees_greedy, bind.
  rewrite check_employees_ok by exact Hh. simpl.
  destruct (_ <? _); reflexivity.
Qed.

Lemma in_firstn_l {A} : forall n (l : list A) x, In x (firstn n l) -> In x l.
Proof.
  intros n l x Hx. rewrite <- (firstn_skipn n l). apply in_or_app. now left.
Qed.

Lemma in_py_slice_to {A} : forall (l : list A) n x, In x (py_slice_to l n) -> In x l.
Proof. intros l n x. unfold py_slice_to. destruct (0 <=? n); apply in_firstn_l. Qed.

Lemma pick_selected_eligible : forall emps slots day hour n e,
  In e (map fst (py_slice_to (sort_by rate_ltb (map (fun e => (e, hourly_rate e))
                                                   (eligible_employees emps slots day hour))) n)) ->
  In e (eligible_employees emps slots day hour).
Proof.
  intros emps slots day hour n e Hin. apply in_map_iff in Hin as [[e' r] [Ee Hin]].
  simpl in Ee. subst e'. apply in_py_slice_to in Hin.
  apply (Permutation_in _ (sort_by_perm _ rate_ltb _)) in Hin.
  apply in_map_iff in Hin as [e' [Ee Hin]]. inversion Ee; subst. exact Hin.
Qed.

(** ** The assignment loop *)

Lemma in_week_slots : forall d h, In (d, h) week_slots -> 0 <= d <= 6 /\ 0 <= h <= 23.
Proof.
  intros d h Hin. unfold week_slots in Hin. apply in_flat_map in Hin as [d' [Hd Hin]].
  apply in_map_iff in Hin as [h' [E Hh]]. inversion E; subst.
  unfold py_range in Hd, Hh. apply in_zseq in Hd, Hh. lia.
Qed.

Lemma has_key_map : forall (g : string * list (Z * Z) -> string * list (Z * Z)) k asg,
  (forall kv, fst (g kv) = fst kv) -> has_key k (map g asg) = has_key k asg.
Proof.
  intros g k asg Hg. unfold has_key. induction asg as [|kv rest IH]; simpl; [reflexivity|].
  now rewrite Hg, IH.
Qed.

Lemma has_key_In : forall k asg, has_key k asg = true <-> exists hs, In (k, hs) asg.
Proof.
  intros k asg. unfold has_key. rewrite existsb_exists. split.
  - intros [[k' hs] [Hin E]]. apply String.eqb_eq in E. simpl in E. subst. eauto.
  - intros [hs Hin]. exists (k, hs). split; [exact Hin|apply String.eqb_refl].
Qed.

Lemma init_assignments_ok : forall emps fd,
  (forall e, In e emps -> has_key (emp_id e) (init_assignments emps) = true) /\
  assigned_ok fd (init_assignments emps).
Proof.
  intros emps fd. unfold init_assignments.
  assert (G : forall l acc,
    (forall k hs, In (k, hs) acc -> hs = []) ->
    (forall k, has_key k (fold_left (fun acc e =>
               if existsb (fun kv => String.eqb (fst kv) (emp_id e)) acc
               then map (fun kv => if String.eqb (fst kv) (emp_id e) then (fst kv, []) else kv) acc
               else acc ++ [(emp_id e, [])]) l acc) = true <->
               has_key k acc = true \/ exists e, In e l /\ emp_id e = k) /\
    (forall k hs, In (k, hs) (fold_left (fun acc e =>
               if existsb (fun kv => String.eqb (fst kv) (emp_id e)) acc
               then map (fun kv => if String.eqb (fst kv) (emp_id e) then (fst kv, []) else kv) acc
               else acc ++ [(emp_id e, [])]) l acc) -> hs = [])).
  { induction l as [|e l IH]; intros acc Hacc; simpl.
    - split; [|exact Hacc]. intros k. split; [now left|intros [H|[e [[] _]]]; exact H].
    - destruct (existsb (fun kv => String.eqb (fst kv) (emp_id e)) acc) eqn:Eex.
      + destruct (IH (map (fun kv => if String.eqb (fst kv) (emp_id e) then (fst kv, []) else kv) acc))
          as [H1 H2].
        { intros k hs Hin. apply in_map_iff in Hin as [[k' hs'] [E Hin]]. simpl in E.
          destruct (String.eqb k' (emp_id e)); inversion E; subst; [reflexivity|].
          exact (Hacc _ _ Hin). }
        split; [|exact H2]. intros k. rewrite H1, has_key_map
          by (intros [k' hs']; simpl; destruct (String.eqb k' (emp_id e)); reflexivity).
        split.
        * intros [H|[e' [He' E]]]; [now left|right; exists e'; split; [right|]; assumption].
        * intros [H|[e' [[<-|He'] E]]]; [now left| |right; exists e'; split; assumption].
          left. subst k. exact Eex.
      + destruct (IH (acc ++ [(emp_id e, [])])) as [H1 H2].
        { intros k hs Hin. apply in_app_or in Hin as [Hin|[E|[]]];
            [exact (Hacc _ _ Hin)|now inversion E]. }
        split; [|exact H2]. intros k. rewrite H1. unfold has_key. rewrite existsb_app. simpl.
        rewrite Bool.orb_true_iff, Bool.orb_false_r. split.
        * intros [[H|H]|[e' [He' E]]].
          -- now left.
          -- right. exists e. split; [left; reflexivity|]. apply String.eqb_eq in H. now symmetry.
          -- right. exists e'. split; [right|]; assumption.
        * intros [H|[e' [[<-|He'] E]]].
          -- now left; left.
          -- left; right. subst k. apply String.eqb_refl.
          -- right. exists e'. split; assumption. }
  destruct (G emps [] ltac:(intros k hs [])) as [H1 H2]. split.
  - intros e He. apply H1. right. eauto.
  - intros k hs d h Hin Hh. rewrite (H2 _ _ Hin) in Hh. destruct Hh.
Qed.

Lemma assignment_append_ok : forall fd asg k d h s,
  has_key k asg = true -> assigned_ok fd asg ->
  0 <= d <= 6 -> 0 <= h <= 23 -> forecast_has fd d h = true \/ 6 <= h ->
  exists asg', assignment_append asg k (d, h) s = Ok asg' s /\
    (forall k', has_key k' asg' = has_key k' asg) /\ assigned_ok fd asg'.
Proof.
  intros fd asg k d h s Hk Hok Hd Hh Ho. unfold assignment_append.
  fold (has_key k asg). rewrite Hk. eexists. split; [reflexivity|]. split.
  - intros k'. apply has_key_map. intros [k0 hs0]. simpl. now destruct (String.eqb k0 k).
  - intros k' hs' d' h' Hin Hh'. apply in_map_iff in Hin as [[k0 hs0] [E Hin]]. simpl in E.
    destruct (String.eqb k0 k); inversion E; subst.
    + apply in_app_or in Hh' as [Hh'|[E'|[]]]; [exact (Hok _ _ _ _ Hin Hh')|].
      inversion E'; subst. auto.
    + exact (Hok _ _ _ _ Hin Hh').
Qed.

(** The state a run keeps through the assignment loop and the merge. *)
Lemma assign_run : forall emps av fd asg s,
  (forall e, In e emps -> has_key (emp_id e) asg = true) -> assigned_ok fd asg ->
  exists asg' s',
    mfold (assign_slot emps av fd) week_slots asg s = Ok asg' s' /\
    assigned_ok fd asg' /\
    current_cost s' = current_cost s /\ today s' = today s /\
    weekly_budget s' = weekly_budget s /\ min_staff_per_hour s' = min_staff_per_hour s /\
    (exists l, alerts s' = alerts s ++ l /\ Forall run_alert l).
Proof.
  intros emps av fd asg s Hkeys Hok.
  set (I := fun (a : list (string * list (Z * Z))) (t : gen) =>
    (forall e, In e emps -> has_key (emp_id e) a = true) /\ assigned_ok fd a /\
    current_cost t = current_cost s /\ today t = today s /\
    weekly_budget t = weekly_budget s /\ min_staff_per_hour t = min_staff_per_hour s /\
    (exists l, alerts t = alerts s ++ l /\ Forall run_alert l)).
  destruct (mfold_ok I (assign_slot emps av fd) week_slots) with (a := asg) (s := s)
    as (asg' & s' & E & (_ & H1 & H2 & H3 & H4 & H5 & H6)).
  - intros a [day hour] t Hslot (Ik & Iok & Ic & It & Ib & Im & Ial).
    destruct (in_week_slots _ _ Hslot) as [Hd Hh].
    unfold assign_slot, bind.
    destruct (demand_to_staff_run hour day fd t) as (r & Er & Hr0 & Hr). rewrite Er.
    cbn beta iota.
    destruct (r =? 0) eqn:Ez; [exists a, t; split; [reflexivity|unfold I; tauto]|].
    assert (Ho : forecast_has fd day hour = true \/ 6 <= hour).
    { apply Z.eqb_neq in Ez. destruct (forecast_has fd day hour) eqn:Ef; [now left|].
      right. destruct (Z.lt_ge_cases hour 6) as [Hl|Hl]; [|exact Hl].
      exfalso. apply Ez, Hr. split; [reflexivity|lia]. }
    rewrite pick_run by exact Hh. cbv zeta.
    set (sel := map fst _).
    assert (Hsel : forall e, In e sel -> In e emps).
    { intros e He. apply pick_selected_eligible in He.
      unfold eligible_employees in He. apply filter_In in He. apply He. }
    set (t1 := if _ <? r then _ else t).
    assert (It1 : I a t1).
    { subst t1. unfold I. destruct (_ <? r); [|tauto].
      refine (conj Ik (conj Iok (conj Ic (conj It (conj Ib (conj Im _)))))).
      destruct Ial as (l & Hl & Hk). eexists. split.
      - simpl. rewrite Hl, <- app_assoc. reflexivity.
      - apply Forall_app; split; [exact Hk|]. constructor; [|constructor].
        left. do 4 eexists. reflexivity. }
    clearbody t1. clearbody sel.
    apply mfold_ok; [|exact It1].
    intros a1 e t2 He (Ik2 & Iok2 & Ic2 & It2 & Ib2 & Im2 & Ial2).
    destruct (assignment_append_ok fd a1 (emp_id e) day hour t2 (Ik2 _ (Hsel _ He)) Iok2 Hd Hh Ho)
      as (a2 & E2 & Hk2 & Hok2).
    exists a2, t2. split; [exact E2|]. unfold I.
    refine (conj _ (conj Hok2 (conj Ic2 (conj It2 (conj Ib2 (conj Im2 Ial2)))))).
    intros e' He'. rewrite Hk2. now apply Ik2.
  - unfold I. refine (conj Hkeys (conj Hok (conj eq_refl (conj eq_refl (conj eq_refl (conj eq_refl _)))))).
    exists []. split; [now rewrite app_nil_r|constructor].
  - exists asg', s'. tauto.
Qed.

(** What one run of [generate_schedule] does: it succeeds, returns the
    alert list it ends with (assignment and budget alerts only), its
    running total is the sum of its shifts' costs, and every shift comes
    from the assignments it recorded. *)
Lemma generate_run : forall emps av fd s,
  exists sh s',
    generate_schedule emps av fd s = Ok (sh, alerts s') s' /\
    current_cost s' = cost_sum sh 0 /\
    today s' = today s /\ weekly_budget s' = weekly_budget s /\
    min_staff_per_hour s' = min_staff_per_hour s /\
    Forall run_alert (alerts s') /\
    exists asg, assigned_ok fd asg /\ Forall (shift_from asg emps (today s)) sh.
Proof.
  intros emps av fd s.
  destruct (init_assignments_ok emps fd) as [Hk Hok].
  destruct (assign_run emps av fd (init_assignments emps) (reset_run s) Hk Hok)
    as (asg & s1 & E1 & Hok1 & Hc1 & Ht1 & Hb1 & Hm1 & (l1 & Hl1 & Hk1)).
  destruct (merge_run asg emps s1) as (sh & s2 & E2 & Hc2 & Ht2 & Hb2 & Hm2 & (l2 & Hl2 & Hk2) & Hsh).
  { intros eid hours d h Hin Hh. destruct (Hok1 _ _ _ _ Hin Hh) as (_ & H & _). exact H. }
  exists sh, s2. unfold generate_schedule, bind at 1, modify.
  unfold bind at 1. rewrite E1. unfold bind at 1. rewrite E2. simpl.
  split; [reflexivity|].
  rewrite Hc2, Hc1, Ht2, Ht1, Hb2, Hb1, Hm2, Hm1 in *. simpl in *.
  repeat split; auto.
  - rewrite Hl2, Hl1. apply Forall_app; split; [exact Hk1|exact Hk2].
  - exists asg. split; [exact Hok1|exact Hsh].
Qed.

(** ** Dates of the current week *)

Lemma get_date_for_day_week : forall t d,
  get_date_for_day t d = get_date_for_day t 0 + d /\
  py_weekday (get_date_for_day t 0) = 6 /\
  get_date_for_day t 0 <= t <= get_date_for_day t 0 + 6.
Proof.
  intros t d. unfold get_date_for_day, py_weekday.
  pose proof (Z.div_mod (t + 6) 7 ltac:(lia)) as H1.
  pose proof (Z.mod_pos_bound (t + 6) 7 ltac:(lia)) as B1.
  set (w := (t + 6) mod 7) in *. set (q := (t + 6) / 7) in *.
  pose proof (Z.div_mod (w + 1) 7 ltac:(lia)) as H2.
  pose proof (Z.mod_pos_bound (w + 1) 7 ltac:(lia)) as B2.
  set (k := (w + 1) mod 7) in *. set (q' := (w + 1) / 7) in *.
  split; [lia|]. split; [|lia].
  replace (t - k + 0 + 6) with (6 + (q + q' - 1) * 7) by lia.
  rewrite Z.mod_add by lia. reflexivity.
Qed.

Lemma employee_lookup_in : forall emps eid e,
  employee_lookup emps eid = Some e -> In e emps /\ emp_id e = eid.
Proof.
  intros emps eid e H. unfold employee_lookup in H. apply find_some in H as [Hin E].
  apply String.eqb_eq in E. split; [apply in_rev; exact Hin|exact E].
Qed.

(** Every shift of a run, field by field. *)
Lemma generate_shift_shape : forall emps av fd s sh al s',
  generate_schedule emps av fd s = Ok (sh, al) s' ->
  al = alerts s' /\ current_cost s' = cost_sum sh 0 /\ today s' = today s /\
  weekly_budget s' = weekly_budget s /\ Forall run_alert al /\
  forall x, In x sh -> exists e d a b,
    In e emps /\ employee_lookup emps (shift_employee_id x) = Some e /\
    0 <= d <= 6 /\ 0 <= a /\ a <= b /\ b <= 23 /\ (forecast_has fd d a = true \/ 6 <= a) /\
    shift_hourly_rate x = hourly_rate e /\ shift_date x = get_date_for_day (today s) d /\
    start_time x = time_of a 0 /\ end_time x = time_of ((b + 1) mod 24) 0 /\
    break_minutes x = shift_break (b - a + 1) /\
    total_cost x = shift_cost (b - a + 1) (hourly_rate e).
Proof.
  intros emps av fd s sh al s' E.
  destruct (generate_run emps av fd s) as (sh0 & s0 & E0 & Hc & Ht & Hb & _ & Hal & asg & Hok & Hsh).
  rewrite E0 in E. inversion E; subst. clear E.
  repeat split; auto. intros x Hx. rewrite Forall_forall in Hsh.
  destruct (Hsh x Hx) as (eid & hours & e & d & a & b & Hin & Hl & Ha & Hb' & Hab & Hid & Hr & Hd & Hst & Hen & Hbr & Hco).
  destruct (Hok _ _ _ _ Hin Ha) as (Hd1 & Ha1 & Ho).
  destruct (Hok _ _ _ _ Hin Hb') as (_ & Hb1 & _).
  exists e, d, a, b. rewrite Hid.
  repeat split; try tauto; try lia. apply (employee_lookup_in emps eid e Hl).
Qed.

(** ** Extra properties of [ScheduleGenerator] *)


(** At an hour of the day, [pick_employees_greedy] returns eligible
    employees only; when fewer are eligible than required it returns them
    all and appends one [insufficient_staff] alert carrying their number,
    and otherwise it leaves the generator unchanged. *)
Theorem pick_insufficient_staff_alert : forall emps slots req day hour s,
  0 <= hour <= 23 ->
  exists r s',
    pick_employees_greedy emps slots req day hour s = Ok r s' /\
    incl r (eligible_employees emps slots day hour) /\
    (Z.of_nat (length (eligible_employees emps slots day hour)) < req ->
       length r = length (eligible_employees emps slots day hour) /\
       alerts s' = alerts s ++ [insufficient_alert day hour
                                  (Z.of_nat (length (eligible_employees emps slots day hour))) req] /\
       current_cost s' = current_cost s) /\
    (req <= Z.of_nat (length (eligible_employees emps slots day hour)) -> s' = s).
Proof.
  intros emps slots req day hour s Hh. rewrite pick_run by exact Hh. cbv zeta.
  set (elig := eligible_employees emps slots day hour).
  set (sorted := sort_by rate_ltb (map (fun e => (e, hourly_rate e)) elig)).
  assert (Hlen : length sorted = length elig).
  { subst sorted. rewrite (Permutation_length (sort_by_perm _ rate_ltb _)). apply length_map. }
  rewrite Hlen. eexists _, _. split; [reflexivity|]. split.
  { intros e He. exact (pick_selected_eligible _ _ _ _ _ _ He). }
  split.
  - intros Hlt. rewrite Z.min_r by lia. rewrite (proj2 (Z.ltb_lt _ _) Hlt).
    split; [|split; reflexivity].
    unfold py_slice_to. rewrite (proj2 (Z.leb_le 0 _)) by lia. rewrite Nat2Z.id.
    rewrite <- Hlen, firstn_all, length_map, Hlen. reflexivity.
  - intros Hge. rewrite Z.min_l by exact Hge. now rewrite Z.ltb_irrefl.
Qed.

Lemma check_employees_bad_hour : forall slots day hour l acc s, ~ (0 <= hour <= 23) ->
  mfold (check_employee slots day hour) l acc s =
  if existsb (fun e => match first_slot (emp_id e) day slots with Some _ => true | None => false end) l
  then Err ValueError s else Ok acc s.
Proof.
  intros slots day hour l. induction l as [|e l IH]; intros acc s Hh; simpl; [reflexivity|].
  unfold bind at 1, check_employee.
  destruct (first_slot (emp_id e) day slots) as [sl|]; simpl.
  - rewrite py_time_0. replace (time_valid hour) with false; [reflexivity|].
    symmetry. unfold time_valid. apply Bool.not_true_iff_false. intros H.
    apply andb_prop in H as [H1 H2]. apply Z.leb_le in H1, H2. lia.
  - apply IH. exact Hh.
Qed.

(** For an hour outside 0..23, [pick_employees_greedy] raises [ValueError]
    (from [time(target_hour, 0)]) as soon as some candidate has an
    available slot that day; otherwise it returns no employee, with an
    [insufficient_staff] alert when the required count is positive. *)
Theorem pick_invalid_hour : forall emps slots req day hour s,
  ~ (0 <= hour <= 23) ->
  pick_employees_greedy emps slots req day hour s =
  if existsb (fun e => match first_slot (emp_id e) day slots with Some _ => true | None => false end) emps
  then Err ValueError s
  else if 0 <? req then Ok [] (set_alerts (alerts s ++ [insufficient_alert day hour 0 req]) s)
  else Ok [] s.
Proof.
  intros emps slots req day hour s Hh. unfold pick_employees_greedy, bind at 1.
  rewrite check_employees_bad_hour by exact Hh.
  destruct (existsb _ emps); [reflexivity|]. simpl.
  unfold bind, append_alert, modify, ret.
  destruct (Z.ltb_spec 0 req) as [Hr|Hr].
  - rewrite Z.min_r by lia. rewrite (proj2 (Z.ltb_lt 0 req) Hr).
    unfold py_slice_to. now destruct (0 <=? 0).
  - rewrite Z.min_l by lia. rewrite Z.ltb_irrefl.
    unfold py_slice_to. destruct (0 <=? req); simpl; now rewrite firstn_nil.
Qed.


(** After [generate_schedule], the running total [current_cost] (the
    [total_cost] the route reports) is the sum of the returned shifts'
    costs, added in order from 0: nothing else is counted. *)
Theorem generate_schedule_cost_is_shift_sum : forall emps av fd s sh al s',
  generate_schedule emps av fd s = Ok (sh, al) s' ->
  current_cost s' = cost_sum sh 0.
Proof. intros emps av fd s sh al s' E. apply (generate_shift_shape _ _ _ _ _ _ _ E). Qed.

(** Every alert [generate_schedule] returns is an [insufficient_staff] alert
    of the assignment phase or a [budget_exceeded] alert of the merge. *)
Theorem generate_schedule_alert_kinds : forall emps av fd s sh al s',
  generate_schedule emps av fd s = Ok (sh, al) s' -> Forall run_alert al.
Proof. intros emps av fd s sh al s' E. apply (generate_shift_shape _ _ _ _ _ _ _ E). Qed.

(** Every shift's date lies in the Sunday-to-Saturday week that contains
    the generator's current date ([date.today()]): the Sunday on or before
    today, and the six days after it. *)
Theorem generate_schedule_dates_in_current_week : forall emps av fd s sh al s',
  generate_schedule emps av fd s = Ok (sh, al) s' ->
  let sunday := get_date_for_day (today s) 0 in
  py_weekday sunday = 6 /\ sunday <= today s <= sunday + 6 /\
  forall x, In x sh -> sunday <= shift_date x <= sunday + 6.
Proof.
  intros emps av fd s sh al s' E sunday.
  destruct (generate_shift_shape _ _ _ _ _ _ _ E) as (_ & _ & _ & _ & _ & Hx).
  destruct (get_date_for_day_week (today s) 0) as (_ & Hw & Ht).
  split; [exact Hw|]. split; [exact Ht|].
  intros x Hin. destruct (Hx x Hin) as (e & d & a & b & _ & _ & Hd & _ & _ & _ & _ & _ & Hdate & _).
  rewrite Hdate. destruct (get_date_for_day_week (today s) d) as (Hdd & _). subst sunday. lia.
Qed.

(** Without forecast data, no shift starts before 06:00 (hours 0..5 need no
    staff), and every shift starts at a whole hour of the day. *)
Theorem generate_schedule_no_forecast_opening_hours : forall emps av s sh al s',
  generate_schedule emps av None s = Ok (sh, al) s' ->
  forall x, In x sh -> exists a, 6 <= a <= 23 /\ start_time x = time_of a 0.
Proof.
  intros emps av s sh al s' E x Hin.
  destruct (generate_shift_shape _ _ _ _ _ _ _ E) as (_ & _ & _ & _ & _ & Hx).
  destruct (Hx x Hin) as (e & d & a & b & _ & _ & _ & Ha & Hab & Hb & Ho & _ & _ & Hst & _).
  simpl in Ho. destruct Ho as [Ho|Ho]; [discriminate|]. exists a. split; [lia|exact Hst].
Qed.

(** Every shift belongs to an input employee: the one the employee list
    maps its id to (the last with that id), whose hourly rate it carries. *)
Theorem generate_schedule_shift_employee : forall emps av fd s sh al s',
  generate_schedule emps av fd s = Ok (sh, al) s' ->
  forall x, In x sh -> exists e,
    In e emps /\ emp_id e = shift_employee_id x /\
    employee_lookup emps (shift_employee_id x) = Some e /\
    shift_hourly_rate x = hourly_rate e.
Proof.
  intros emps av fd s sh al s' E x Hin.
  destruct (generate_shift_shape _ _ _ _ _ _ _ E) as (_ & _ & _ & _ & _ & Hx).
  destruct (Hx x Hin) as (e & d & a & b & He & Hl & _ & _ & _ & _ & _ & Hr & _).
  exists e. repeat split; auto. apply (employee_lookup_in _ _ _ Hl).
Qed.

(** ** Insertion-ordered dicts *)

Section Dict.
Variables K V : Type.
Variable eqb : K -> K -> bool.
Hypothesis eqb_spec : forall x y, reflect (x = y) (eqb x y).

Lemma dict_get_set_eq : forall k (v : V) d, dict_get eqb k (dict_set eqb k v d) = Some v.
Proof.
  intros k v d. unfold dict_get, dict_set.
  destruct (existsb (fun kv => eqb (fst kv) k) d) eqn:Ex.
  - induction d as [|[k0 v0] rest IH]; simpl in *; [discriminate|].
    destruct (eqb_spec k0 k) as [->|Hne]; simpl.
    + destruct (eqb_spec k k); [reflexivity|congruence].
    + destruct (eqb_spec k0 k); [congruence|]. apply IH. exact Ex.
  - induction d as [|[k0 v0] rest IH]; simpl in *.
    + destruct (eqb_spec k k); [reflexivity|congruence].
    + destruct (eqb_spec k0 k); [discriminate|]. apply IH. exact Ex.
Qed.

Lemma dict_get_set_neq : forall k k' (v : V) d, k' <> k ->
  dict_get eqb k' (dict_set eqb k v d) = dict_get eqb k' d.
Proof.
  intros k k' v d Hne. unfold dict_get, dict_set.
  destruct (existsb (fun kv => eqb (fst kv) k) d).
  - induction d as [|[k0 v0] rest IH]; simpl; [reflexivity|].
    destruct (eqb_spec k0 k) as [->|Hk]; simpl.
    + destruct (eqb_spec k k'); [congruence|]. exact IH.
    + destruct (eqb_spec k0 k'); [reflexivity|exact IH].
  - induction d as [|[k0 v0] rest IH]; simpl.
    + destruct (eqb_spec k k'); [congruence|reflexivity].
    + destruct (eqb_spec k0 k'); [reflexivity|exact IH].
Qed.

Lemma dict_get_none : forall k (d : list (K * V)),
  existsb (fun kv => eqb (fst kv) k) d = false -> dict_get eqb k d = None.
Proof.
  intros k d H. unfold dict_get. induction d as [|[k0 v0] rest IH]; simpl in *; [reflexivity|].
  apply Bool.orb_false_iff in H as [H1 H2]. rewrite H1. exact (IH H2).
Qed.

Lemma dict_get_some : forall k (d : list (K * V)) v,
  dict_get eqb k d = Some v -> existsb (fun kv => eqb (fst kv) k) d = true.
Proof.
  intros k d v H. unfold dict_get in H. induction d as [|[k0 v0] rest IH]; simpl in *; [discriminate|].
  destruct (eqb k0 k); [reflexivity|]. simpl. exact (IH H).
Qed.

End Dict.

Arguments dict_get_set_eq {K V} eqb eqb_spec.
Arguments dict_get_set_neq {K V} eqb eqb_spec.
Arguments dict_get_none {K V} eqb.
Arguments dict_get_some {K V} eqb.

(** ** [load_forecast] then the lookups of [demand_to_staff_with_forecast] *)

Definition lookup2 (d h : Z) (days : list (Z * list (Z * fentry))) : option fentry :=
  match dict_get Z.eqb d days with Some hs => dict_get Z.eqb h hs | None => None end.

Lemma lookup2_add_row : forall d h days d' h' dem conf,
  lookup2 d h (add_row days (d', h', dem, conf)) =
  if Z.eqb d' d && Z.eqb h' h then Some (mkFentry dem conf) else lookup2 d h days.
Proof.
  intros d h days d' h' dem conf. unfold add_row, lookup2.
  set (days1 := match dict_get Z.eqb d' days with Some _ => days | None => dict_set Z.eqb d' [] days end).
  set (hours := match dict_get Z.eqb d' days1 with Some hs => hs | None => [] end).
  destruct (Z.eqb_spec d' d) as [<-|Hd]; simpl.
  - rewrite (dict_get_set_eq Z.eqb Z.eqb_spec).
    destruct (Z.eqb_spec h' h) as [<-|Hh].
    + apply (dict_get_set_eq Z.eqb Z.eqb_spec).
    + rewrite (dict_get_set_neq Z.eqb Z.eqb_spec) by congruence.
      subst hours days1. destruct (dict_get Z.eqb d' days) as [hs|] eqn:E; [rewrite E; reflexivity|].
      rewrite (dict_get_set_eq Z.eqb Z.eqb_spec). reflexivity.
  - rewrite (dict_get_set_neq Z.eqb Z.eqb_spec) by congruence.
    subst days1. destruct (dict_get Z.eqb d' days); [reflexivity|].
    rewrite (dict_get_set_neq Z.eqb Z.eqb_spec) by congruence. reflexivity.
Qed.

Lemma lookup2_rows : forall d h rows days,
  lookup2 d h (fold_left add_row rows days) =
  fold_left (fun acc (row : forecast_row) =>
               let '(d', h', dem, conf) := row in
               if Z.eqb d' d && Z.eqb h' h then Some (mkFentry dem conf) else acc)
            rows (lookup2 d h days).
Proof.
  intros d h rows. induction rows as [|[[[d' h'] dem] conf] rows IH]; intros days;
    cbn [fold_left]; [reflexivity|].
  rewrite IH, lookup2_add_row. reflexivity.
Qed.

Lemma lookup2_last_row : forall d h rows,
  lookup2 d h (fold_left add_row rows []) = last_row_for d h rows.
Proof. intros. rewrite lookup2_rows. reflexivity. Qed.

Lemma load_forecast_rows : forall business_id week rows s, rows <> [] ->
  exists a, load_forecast business_id week (inr rows) s =
    Ok true (set_alerts (alerts s ++ [a])
               (set_cache (dict_set String.eqb week (fold_left add_row rows [])
                             (dict_set String.eqb week [] (forecast_cache s))) s)) /\
    alert_type a = "forecast_loaded".
Proof.
  intros business_id week rows s Hne. destruct rows as [|r rows]; [congruence|].
  eexists. split.
  - unfold load_forecast, bind, modify, append_alert, ret. cbn. reflexivity.
  - reflexivity.
Qed.

Lemma demand_to_staff_none : forall hour day s,
  demand_to_staff hour day None s =
  Ok (if existsb (Z.eqb hour) peak_hours then Z.max 2 (min_staff_per_hour s)
      else if (6 <=? hour) && (hour <=? 23) then Z.max 1 (min_staff_per_hour s) else 0) s.
Proof.
  intros hour day s. unfold demand_to_staff, bind, get.
  destruct (existsb (Z.eqb hour) peak_hours), ((6 <=? hour) && (hour <=? 23)); reflexivity.
Qed.

(** [load_forecast] with rows replaces the week's dict by the one built from
    them: afterwards [cache[week][date][hour]] is the entry of the last row
    for that date and hour (no entry of the week's previous dict survives),
    the other weeks are untouched, one [forecast_loaded] alert is appended
    and the cost is kept. *)
Theorem load_forecast_round_trip : forall business_id week rows s,
  rows <> [] ->
  exists s', load_forecast business_id week (inr rows) s = Ok true s' /\
    (forall d h, cache_lookup (forecast_cache s') week d h = last_row_for d h rows) /\
    (forall w, w <> week ->
       dict_get String.eqb w (forecast_cache s') = dict_get String.eqb w (forecast_cache s)) /\
    (exists a, alerts s' = alerts s ++ [a] /\ alert_type a = "forecast_loaded") /\
    current_cost s' = current_cost s /\ today s' = today s.
Proof.
  intros business_id week rows s Hne.
  destruct (load_forecast_rows business_id week rows s Hne) as [a [E Ha]].
  eexists. split; [exact E|]. cbn. split; [|split; [|split; [eauto|split; reflexivity]]].
  - intros d h. unfold cache_lookup.
    rewrite (dict_get_set_eq String.eqb String.eqb_spec).
    rewrite <- lookup2_last_row. reflexivity.
  - intros w Hw.
    rewrite (dict_get_set_neq String.eqb String.eqb_spec) by congruence.
    rewrite (dict_get_set_neq String.eqb String.eqb_spec) by congruence. reflexivity.
Qed.

Lemma load_forecast_round_trip_witness :
  [(739000, 10, 25%Q, 9 # 10); (739000, 10, 40%Q, 8 # 10)] <> [] /\
  exists s', load_forecast "b1" "2025-W01" (inr [(739000, 10, 25%Q, 9 # 10); (739000, 10, 40%Q, 8 # 10)]) gen_with_forecast = Ok true s' /\
    (forall d h, cache_lookup (forecast_cache s') "2025-W01" d h =
                 last_row_for d h [(739000, 10, 25%Q, 9 # 10); (739000, 10, 40%Q, 8 # 10)]) /\
    (forall w, w <> "2025-W01" ->
       dict_get String.eqb w (forecast_cache s') = dict_get String.eqb w (forecast_cache gen_with_forecast)) /\
    (exists a, alerts s' = alerts gen_with_forecast ++ [a] /\ alert_type a = "forecast_loaded") /\
    current_cost s' = current_cost gen_with_forecast /\ today s' = today gen_with_forecast.
Proof.
  split; [discriminate|].
  apply (load_forecast_round_trip "b1" "2025-W01"). discriminate.
Defined.

(** When the query raises or returns no rows, [load_forecast] returns
    False, appends exactly one warning alert and changes nothing else: the
    cache keeps what it held. *)
Theorem load_forecast_failure : forall business_id week query s,
  (query = inr [] \/ exists err, query = inl err) ->
  exists a, load_forecast business_id week query s = Ok false (set_alerts (alerts s ++ [a]) s) /\
    severity a = "warning" /\
    (alert_type a = "missing_forecast" \/ alert_type a = "forecast_error").
Proof.
  intros business_id week query s [->|[err ->]]; eexists; split; try reflexivity; cbn; auto.
Qed.

Lemma load_forecast_failure_witness :
  (inr [] = @inr string (list forecast_row) [] \/ exists err, @inr string (list forecast_row) [] = inl err) /\
  exists a, load_forecast "b1" "2025-W01" (inr []) gen_with_forecast =
    Ok false (set_alerts (alerts gen_with_forecast ++ [a]) gen_with_forecast) /\
    severity a = "warning" /\
    (alert_type a = "missing_forecast" \/ alert_type a = "forecast_error").
Proof.
  split; [left; reflexivity|].
  apply (load_forecast_failure "b1" "2025-W01" (inr [])). left; reflexivity.
Defined.

(** On a generator with an empty cache, after [load_forecast] of a week's
    rows, the forecast that [demand_to_staff_with_forecast] consults for a
    date and an hour is the last loaded row for them; none is consulted at
    all when the week string is empty (a falsy week). *)
Theorem load_then_forecast_lookup : forall business_id week rows s d h,
  rows <> [] -> forecast_cache s = [] ->
  exists s', load_forecast business_id week (inr rows) s = Ok true s' /\
    forecast_hour_data (forecast_cache s') d h =
      if String.eqb week "" then None else last_row_for d h rows.
Proof.
  intros business_id week rows s d h Hne Hc.
  destruct (load_forecast_rows business_id week rows s Hne) as [a [E _]].
  eexists. split; [exact E|]. cbn. rewrite Hc.
  set (F := fold_left add_row rows []).
  assert (HC : dict_set String.eqb week F (dict_set String.eqb week [] []) = [(week, F)]).
  { unfold dict_set. cbn. rewrite String.eqb_refl. reflexivity. }
  rewrite HC. unfold forecast_hour_data, find_week. cbn.
  rewrite <- lookup2_last_row. fold F. unfold lookup2.
  destruct (existsb (fun dv => Z.eqb (fst dv) d) F) eqn:Ex; cbn.
  - destruct (String.eqb week ""); [reflexivity|].
    unfold dict_get at 1. cbn. rewrite String.eqb_refl. reflexivity.
  - rewrite (dict_get_none Z.eqb d F Ex). destruct (String.eqb week ""); reflexivity.
Qed.

Lemma load_then_forecast_lookup_witness :
  [(739000, 10, 25%Q, 9 # 10)] <> [] /\ forecast_cache sample_gen = [] /\
  exists s', load_forecast "b1" "2025-W01" (inr [(739000, 10, 25%Q, 9 # 10)]) sample_gen = Ok true s' /\
    forecast_hour_data (forecast_cache s') 739000 10 =
      if String.eqb "2025-W01" "" then None else last_row_for 739000 10 [(739000, 10, 25%Q, 9 # 10)].
Proof.
  split; [discriminate|]. split; [reflexivity|].
  apply (load_then_forecast_lookup "b1" "2025-W01"); [discriminate|reflexivity].
Defined.

(** Without a forecast entry above the confidence threshold,
    [demand_to_staff_with_forecast] falls back to the hour-of-day pattern of
    [demand_to_staff] on the generator's [min_staff_per_hour]: the
    settings' minimum and maximum staff are not applied; a low-confidence
    entry adds one [low_confidence_forecast] alert. *)
Theorem demand_to_staff_with_forecast_fallback : forall target_date hour settings s,
  (forall e, forecast_hour_data (forecast_cache s) target_date hour = Some e ->
     Qle_bool (confidence_threshold (apply_settings settings)) (f_confidence e) = false) ->
  let r := if existsb (Z.eqb hour) peak_hours then Z.max 2 (min_staff_per_hour s)
           else if (6 <=? hour) && (hour <=? 23) then Z.max 1 (min_staff_per_hour s) else 0 in
  demand_to_staff_with_forecast target_date hour settings s =
    match forecast_hour_data (forecast_cache s) target_date hour with
    | Some e => Ok r (set_alerts (alerts s ++ [low_confidence_alert target_date hour (f_confidence e)]) s)
    | None => Ok r s
    end.
Proof.
  intros target_date hour settings s Hlow r.
  unfold demand_to_staff_with_forecast, bind, get.
  destruct (forecast_hour_data (forecast_cache s) target_date hour) as [e|] eqn:Ef.
  - rewrite (Hlow e eq_refl). unfold append_alert, modify. cbv beta iota.
    rewrite demand_to_staff_none. reflexivity.
  - apply demand_to_staff_none.
Qed.

Lemma demand_to_staff_with_forecast_fallback_witness :
  (forall e, forecast_hour_data (forecast_cache gen_with_forecast) sample_date 10 = Some e ->
     Qle_bool (confidence_threshold (apply_settings (Some strict_settings))) (f_confidence e) = false) /\
  demand_to_staff_with_forecast sample_date 10 (Some strict_settings) gen_with_forecast =
    match forecast_hour_data (forecast_cache gen_with_forecast) sample_date 10 with
    | Some e => Ok 1 (set_alerts (alerts gen_with_forecast ++
                        [low_confidence_alert sample_date 10 (f_confidence e)]) gen_with_forecast)
    | None => Ok 1 gen_with_forecast
    end.
Proof.
  assert (H : forall e, forecast_hour_data (forecast_cache gen_with_forecast) sample_date 10 = Some e ->
     Qle_bool (confidence_threshold (apply_settings (Some strict_settings))) (f_confidence e) = false).
  { intros e He. vm_compute in He. injection He as <-. vm_compute. reflexivity. }
  split; [exact H|].
  apply (demand_to_staff_with_forecast_fallback sample_date 10 (Some strict_settings) gen_with_forecast H).
Defined.

(** A confident forecast entry with a [demand_per_staff] setting of zero
    makes [demand_to_staff_with_forecast] raise [ZeroDivisionError]. *)
Theorem demand_to_staff_with_forecast_zero_division : forall target_date hour settings s e,
  forecast_hour_data (forecast_cache s) target_date hour = Some e ->
  Qle_bool (confidence_threshold (apply_settings settings)) (f_confidence e) = true ->
  (demand_per_staff (apply_settings settings) == 0)%Q ->
  demand_to_staff_with_forecast target_date hour settings s = Err ZeroDivisionError s.
Proof.
  intros target_date hour settings s e He Hc Hz.
  unfold demand_to_staff_with_forecast, bind, get. rewrite He, Hc.
  apply Qeq_bool_iff in Hz. rewrite Hz. reflexivity.
Qed.

Lemma demand_to_staff_with_forecast_zero_division_witness :
  demand_to_staff_with_forecast sample_date 10 (Some zero_rate_settings) gen_with_forecast =
    Err ZeroDivisionError gen_with_forecast.
Proof.
  apply (demand_to_staff_with_forecast_zero_division sample_date 10 (Some zero_rate_settings)
           gen_with_forecast (mkFentry 25 (9 # 10))); vm_compute; reflexivity.
Defined.

Lemma generate_schedule_cost_is_shift_sum_witness :
  generate_schedule [emp_a] [slot_day1 "a"] None sample_gen = Ok (sample_shifts, sample_alerts) (state_of sample_run) /\
  current_cost (state_of sample_run) = cost_sum sample_shifts 0.
Proof.
  assert (E : generate_schedule [emp_a] [slot_day1 "a"] None sample_gen = Ok (sample_shifts, sample_alerts) (state_of sample_run)) by (vm_compute; reflexivity).
  split; [exact E|].
  exact (generate_schedule_cost_is_shift_sum _ _ _ _ _ _ _ E).
Defined.

Lemma generate_schedule_alert_kinds_witness :
  generate_schedule [emp_a] [slot_day1 "a"] None sample_gen = Ok (sample_shifts, sample_alerts) (state_of sample_run) /\
  Forall run_alert sample_alerts.
Proof.
  assert (E : generate_schedule [emp_a] [slot_day1 "a"] None sample_gen = Ok (sample_shifts, sample_alerts) (state_of sample_run)) by (vm_compute; reflexivity).
  split; [exact E|].
  exact (generate_schedule_alert_kinds _ _ _ _ _ _ _ E).
Defined.

Lemma generate_schedule_dates_in_current_week_witness :
  generate_schedule [emp_a] [slot_day1 "a"] None sample_gen = Ok (sample_shifts, sample_alerts) (state_of sample_run) /\
  let sunday := get_date_for_day (today sample_gen) 0 in
  py_weekday sunday = 6 /\ sunday <= today sample_gen <= sunday + 6 /\
  forall x, In x sample_shifts -> sunday <= shift_date x <= sunday + 6.
Proof.
  assert (E : generate_schedule [emp_a] [slot_day1 "a"] None sample_gen = Ok (sample_shifts, sample_alerts) (state_of sample_run)) by (vm_compute; reflexivity).
  split; [exact E|].
  exact (generate_schedule_dates_in_current_week _ _ _ _ _ _ _ E).
Defined.

Lemma generate_schedule_no_forecast_opening_hours_witness :
  generate_schedule [emp_a] [slot_day1 "a"] None sample_gen = Ok (sample_shifts, sample_alerts) (state_of sample_run) /\
  forall x, In x sample_shifts -> exists a, 6 <= a <= 23 /\ start_time x = time_of a 0.
Proof.
  assert (E : generate_schedule [emp_a] [slot_day1 "a"] None sample_gen = Ok (sample_shifts, sample_alerts) (state_of sample_run)) by (vm_compute; reflexivity).
  split; [exact E|].
  exact (generate_schedule_no_forecast_opening_hours _ _ _ _ _ _ E).
Defined.

Lemma generate_schedule_shift_employee_witness :
  generate_schedule [emp_a] [slot_day1 "a"] None sample_gen = Ok (sample_shifts, sample_alerts) (state_of sample_run) /\
  forall x, In x sample_shifts -> exists e,
    In e [emp_a] /\ emp_id e = shift_employee_id x /\
    employee_lookup [emp_a] (shift_employee_id x) = Some e /\
    shift_hourly_rate x = hourly_rate e.
Proof.
  assert (E : generate_schedule [emp_a] [slot_day1 "a"] None sample_gen = Ok (sample_shifts, sample_alerts) (state_of sample_run)) by (vm_compute; reflexivity).
  split; [exact E|].
  exact (generate_schedule_shift_employee _ _ _ _ _ _ _ E).
Defined.

Lemma pick_insufficient_staff_alert_witness :
  0 <= 9 <= 23 /\
  exists r s',
    pick_employees_greedy [emp_b; emp_a] [slot_day1 "a"; slot_day1 "b"] 3 1 9 sample_gen = Ok r s' /\
    incl r (eligible_employees [emp_b; emp_a] [slot_day1 "a"; slot_day1 "b"] 1 9) /\
    (Z.of_nat (length (eligible_employees [emp_b; emp_a] [slot_day1 "a"; slot_day1 "b"] 1 9)) < 3 ->
       length r = length (eligible_employees [emp_b; emp_a] [slot_day1 "a"; slot_day1 "b"] 1 9) /\
       alerts s' = alerts sample_gen ++ [insufficient_alert 1 9
                    (Z.of_nat (length (eligible_employees [emp_b; emp_a] [slot_day1 "a"; slot_day1 "b"] 1 9))) 3] /\
       current_cost s' = current_cost sample_gen) /\
    (3 <= Z.of_nat (length (eligible_employees [emp_b; emp_a] [slot_day1 "a"; slot_day1 "b"] 1 9)) -> s' = sample_gen).
Proof.
  split; [lia|]. apply (pick_insufficient_staff_alert [emp_b; emp_a] [slot_day1 "a"; slot_day1 "b"] 3 1 9 sample_gen). lia.
Defined.

Lemma pick_invalid_hour_witness :
  ~ (0 <= 24 <= 23) /\
  pick_employees_greedy [emp_b; emp_a] [slot_day1 "a"; slot_day1 "b"] 3 1 24 sample_gen =
  if existsb (fun e => match first_slot (emp_id e) 1 [slot_day1 "a"; slot_day1 "b"] with Some _ => true | None => false end) [emp_b; emp_a]
  then Err ValueError sample_gen
  else if 0 <? 3 then Ok [] (set_alerts (alerts sample_gen ++ [insufficient_alert 1 24 0 3]) sample_gen)
  else Ok [] sample_gen.
Proof.
  split; [lia|]. apply (pick_invalid_hour [emp_b; emp_a] [slot_day1 "a"; slot_day1 "b"] 3 1 24 sample_gen). lia.
Defined.

(** ** The routes *)

Lemma is_digit_val : forall c, is_digit c = true -> 0 <= digit_val c <= 9.
Proof.
  intros c H. unfold is_digit in H. apply andb_prop in H as [H1 H2].
  apply Nat.leb_le in H1, H2. unfold digit_val. lia.
Qed.

Lemma match_week_bounds : forall s year week,
  match_week s = Some (year, week) -> 0 <= year <= 9999 /\ 0 <= week <= 99.
Proof.
  intros s year week H.
  destruct s as [|c1 [|c2 [|c3 [|c4 [|c5 [|c6 [|c7 rest]]]]]]]; try discriminate.
  unfold match_week in H.
  destruct (is_digit c1) eqn:D1, (is_digit c2) eqn:D2, (is_digit c3) eqn:D3,
           (is_digit c4) eqn:D4, (Ascii.eqb c5 "-"%char), (Ascii.eqb c6 "W"%char),
           (is_digit c7) eqn:D7; cbn in H; try discriminate.
  apply is_digit_val in D1, D2, D3, D4, D7.
  destruct rest as [|c8 r].
  - injection H as <- <-. lia.
  - destruct (is_digit c8) eqn:D8; injection H as <- <-; [apply is_digit_val in D8|]; lia.
Qed.

Lemma py_weekday_monday : forall j k, py_weekday (j - py_weekday j + 7 * k) = 0.
Proof.
  intros j k. unfold py_weekday.
  pose proof (Z.div_mod (j + 6) 7 ltac:(lia)) as H.
  set (r := (j + 6) mod 7) in *. set (q := (j + 6) / 7) in *.
  replace (j - r + 7 * k + 6) with ((q + k) * 7) by lia.
  apply Z_mod_mult.
Qed.

Lemma match_week_app : forall s t, (8 <= String.length s)%nat ->
  match_week (s ++ t) = match_week s.
Proof.
  intros s t H.
  destruct s as [|c1 [|c2 [|c3 [|c4 [|c5 [|c6 [|c7 [|c8 rest]]]]]]]]; cbn in H; try lia.
  reflexivity.
Qed.

Lemma length_zseq : forall n a, length (zseq a n) = n.
Proof. induction n as [|n IH]; intros a; simpl; [reflexivity|rewrite IH; reflexivity]. Qed.

Lemma time_hour_of : forall h, time_hour (time_of h 0) = h.
Proof.
  intros h. unfold time_hour, time_of.
  replace ((h * 60 + 0) * 60 * 1000000) with (h * ((1 * 60 + 0) * 60 * 1000000)) by lia.
  apply Z.div_mul. lia.
Qed.

Lemma fold_sd_total_cost : forall employees sh c0,
  fold_left (fun c d => (c + sd_total_cost d)%Q) (map (to_shift_dict employees) sh) c0 =
  cost_sum sh c0.
Proof.
  intros employees sh. induction sh as [|x sh IH]; intros c0; simpl; [reflexivity|].
  apply IH.
Qed.

(** [parse_week_string] either fails with a [400] when the string does not
    start with [YYYY-W] and one or two digits, with [ValueError] for year 0,
    with [OverflowError] when the date leaves [date.min..date.max]; or it
    returns the Monday [week - 1] weeks after the Monday of the week that
    contains January 1 (not the ISO week, whose week 1 holds January 4);
    weeks 0 and 54..99 are accepted. *)
Theorem parse_week_string_result : forall s,
  match parse_week_string s with
  | inr d => exists year week, match_week s = Some (year, week) /\
      1 <= year <= 9999 /\ 0 <= week <= 99 /\ py_weekday d = 0 /\
      d - 7 * (week - 1) <= jan1_ordinal year < d - 7 * (week - 1) + 7
  | inl e => (match_week s = None /\ e = HTTPError 400) \/
      (exists year week, match_week s = Some (year, week) /\
         ((~ (1 <= year <= 9999) /\ e = PyExn ValueError) \/
          (1 <= year <= 9999 /\ e = OverflowError)))
  end.
Proof.
  intros s. unfold parse_week_string.
  destruct (match_week s) as [[year week]|] eqn:Em; [|left; split; reflexivity].
  destruct (match_week_bounds _ _ _ Em) as [By Bw].
  destruct ((1 <=? year) && (year <=? 9999)) eqn:Ey.
  - apply andb_prop in Ey as [Y1 Y2]. apply Z.leb_le in Y1, Y2.
    set (j := jan1_ordinal year).
    pose proof (Z.mod_pos_bound (j + 6) 7 ltac:(lia)) as Bw'.
    unfold date_add.
    destruct ((1 <=? j + - py_weekday j) && (j + - py_weekday j <=? max_ordinal)); cbv beta iota.
    + destruct ((1 <=? j + - py_weekday j + 7 * (week - 1)) &&
                (j + - py_weekday j + 7 * (week - 1) <=? max_ordinal)); cbv beta iota.
      * exists year, week. split; [reflexivity|]. split; [lia|]. split; [lia|]. split.
        -- replace (j + - py_weekday j + 7 * (week - 1)) with (j - py_weekday j + 7 * (week - 1)) by lia.
           apply py_weekday_monday.
        -- unfold py_weekday in *. subst j. lia.
      * right. exists year, week. split; [reflexivity|]. right. split; [lia|reflexivity].
    + right. exists year, week. split; [reflexivity|]. right. split; [lia|reflexivity].
  - right. exists year, week. split; [reflexivity|]. left. split; [|reflexivity].
    apply Bool.andb_false_iff in Ey as [Y|Y]; apply Z.leb_gt in Y; lia.
Qed.

(** [parse_week_string] reads the first eight characters at most: whatever
    follows [YYYY-WNN] is ignored. *)
Theorem parse_week_string_ignores_suffix : forall s t,
  (8 <= String.length s)%nat -> parse_week_string (s ++ t) = parse_week_string s.
Proof.
  intros s t H. unfold parse_week_string. rewrite (match_week_app s t H). reflexivity.
Qed.

Lemma parse_week_string_ignores_suffix_witness :
  (8 <= String.length "2025-W43")%nat /\
  parse_week_string ("2025-W43" ++ "1-junk") = parse_week_string "2025-W43".
Proof.
  split; [vm_compute; lia|]. apply parse_week_string_ignores_suffix. vm_compute. lia.
Defined.


(** A response of [POST /schedule/{week}/generate] is a draft whose
    [week_start] is the Monday the week string parses to, whose
    [total_cost] is the sum of its shifts' costs, and whose shifts each
    name an employee of the request by [first last] with that employee's
    rate, never the unknown-employee default. The shifts' dates lie in the
    Sunday-to-Saturday week of the request's day, whatever week was asked
    for. *)
Theorem route_generate_schedule_response : forall week request employees availability db_ok today0 u resp,
  route_generate_schedule week request employees availability db_ok today0 u = inr resp ->
  resp_status resp = "draft" /\
  parse_week_string week = inr (resp_week_start resp) /\ py_weekday (resp_week_start resp) = 0 /\
  resp_total_cost resp = fold_left (fun c d => (c + sd_total_cost d)%Q) (resp_shifts resp) 0%Q /\
  forall d, In d (resp_shifts resp) -> exists e,
    In e employees /\ emp_id e = sd_employee_id d /\
    sd_employee_name d = (first_name e ++ " " ++ last_name e)%string /\
    sd_hourly_rate d = hourly_rate e /\
    get_date_for_day today0 0 <= sd_date d <= get_date_for_day today0 0 + 6.
Proof.
  intros week request employees availability db_ok today0 u resp H.
  pose proof (parse_week_string_result week) as Hp.
  unfold route_generate_schedule in H.
  destruct (parse_week_string week) as [e0|ws]; [discriminate|].
  destruct db_ok; [|discriminate]. cbn [negb] in H.
  destruct employees as [|emp emps]; [discriminate|].
  destruct availability as [|sl av]; [discriminate|]. cbv beta iota zeta in H.
  set (g0 := init_gen (req_weekly_budget request) (req_min_staff_per_hour request) today0 u) in H.
  destruct (generate_schedule (emp :: emps) (sl :: av) (req_forecast_data request) g0)
    as [[sh al] g|ex g] eqn:E; [|discriminate].
  injection H as <-. cbn.
  destruct (generate_shift_shape _ _ _ _ _ _ _ E) as (_ & Hc & Ht & _ & _ & Hx).
  split; [reflexivity|]. split; [reflexivity|].
  split; [destruct Hp as (y & w & _ & _ & _ & Hm & _); exact Hm|].
  split; [rewrite fold_sd_total_cost; exact Hc|].
  intros d Hd. apply in_map_iff in Hd as [x [<- Hin]].
  destruct (Hx x Hin) as (e & dd & a & b & He & Hl & Hdd & _ & _ & _ & _ & Hr & Hdate & _).
  destruct (employee_lookup_in _ _ _ Hl) as [_ Hid].
  exists e. cbn. unfold employee_name. rewrite Hl.
  split; [exact He|]. split; [exact Hid|]. split; [reflexivity|]. split; [exact Hr|].
  rewrite Hdate. subst g0. cbn.
  destruct (get_date_for_day_week today0 dd) as [Hg _]. lia.
Qed.

Lemma route_generate_schedule_response_witness :
  exists resp,
  route_generate_schedule "2025-W43" (mkRequest 100 1 None) [emp_a] [slot_day1 "a"] true 739000 0 = inr resp /\
  resp_status resp = "draft" /\
  parse_week_string "2025-W43" = inr (resp_week_start resp) /\ py_weekday (resp_week_start resp) = 0 /\
  resp_total_cost resp = fold_left (fun c d => (c + sd_total_cost d)%Q) (resp_shifts resp) 0%Q /\
  forall d, In d (resp_shifts resp) -> exists e,
    In e [emp_a] /\ emp_id e = sd_employee_id d /\
    sd_employee_name d = (first_name e ++ " " ++ last_name e)%string /\
    sd_hourly_rate d = hourly_rate e /\
    get_date_for_day 739000 0 <= sd_date d <= get_date_for_day 739000 0 + 6.
Proof.
  destruct (route_generate_schedule "2025-W43" (mkRequest 100 1 None) [emp_a] [slot_day1 "a"] true 739000 0)
    as [e|resp] eqn:E.
  - vm_compute in E. discriminate.
  - exists resp. split; [reflexivity|].
    exact (route_generate_schedule_response _ _ _ _ _ _ _ resp E).
Defined.

(** The [total_hours] that [save_schedule_to_db] stores counts, for each
    generated shift from hour [a] through hour [b], [b - a + 1] hours, and
    none at all for a shift that ends at midnight ([end_time] 00:00). *)
Theorem save_schedule_total_hours : forall emps av fd s sh al s',
  generate_schedule emps av fd s = Ok (sh, al) s' ->
  schedule_total_hours sh = fold_left (fun acc x => acc + schedule_total_hours [x]) sh 0 /\
  forall x, In x sh -> exists a b, 0 <= a <= b /\ b <= 23 /\
    start_time x = time_of a 0 /\ end_time x = time_of ((b + 1) mod 24) 0 /\
    schedule_total_hours [x] = if b =? 23 then 0 else b - a + 1.
Proof.
  intros emps av fd s sh al s' E. split; [reflexivity|].
  intros x Hin.
  destruct (generate_shift_shape _ _ _ _ _ _ _ E) as (_ & _ & _ & _ & _ & Hx).
  destruct (Hx x Hin) as (e & d & a & b & _ & _ & _ & Ha & Hab & Hb & _ & _ & _ & Hst & Hen & _).
  exists a, b. split; [lia|]. split; [lia|]. split; [exact Hst|]. split; [exact Hen|].
  unfold schedule_total_hours. cbn [fold_left]. rewrite Hst, Hen, !time_hour_of.
  unfold py_range. rewrite length_zseq.
  destruct (Z.eqb_spec b 23) as [->|Hb23].
  - assert (Z.to_nat ((23 + 1) mod 24 - a) = 0%nat) as ->.
    { change ((23 + 1) mod 24) with 0. destruct (Z.eq_dec a 0) as [->|Ha0]; [reflexivity|].
      replace (0 - a) with (Z.neg (Z.to_pos a)) by (rewrite <- Pos2Z.opp_pos, Z2Pos.id; lia).
      apply Z2Nat.inj_neg. }
    reflexivity.
  - rewrite Z.mod_small by lia. rewrite Z2Nat.id by lia. lia.
Qed.

Lemma save_schedule_total_hours_witness :
  generate_schedule [emp_a] [slot_day1 "a"] None sample_gen = Ok (sample_shifts, sample_alerts) (state_of sample_run) /\
  schedule_total_hours sample_shifts = fold_left (fun acc x => acc + schedule_total_hours [x]) sample_shifts 0 /\
  forall x, In x sample_shifts -> exists a b, 0 <= a <= b /\ b <= 23 /\
    start_time x = time_of a 0 /\ end_time x = time_of ((b + 1) mod 24) 0 /\
    schedule_total_hours [x] = if b =? 23 then 0 else b - a + 1.
Proof.
  assert (E : generate_schedule [emp_a] [slot_day1 "a"] None sample_gen =
              Ok (sample_shifts, sample_alerts) (state_of sample_run)) by (vm_compute; reflexivity).
  split; [exact E|]. exact (save_schedule_total_hours _ _ _ _ _ _ _ E).
Defined.

Lemma stored_shift_cost_hours : forall a b rate, 0 <= a -> a <= b -> b <= 23 ->
  let n := b - a + 1 in
  (stored_shift_cost (time_of a 0) (time_of ((b + 1) mod 24) 0) (shift_break n) rate ==
   shift_cost n rate - (if b =? 23 then 24 * rate else 0))%Q.
Proof.
  intros a b rate Ha Hab Hb n. unfold stored_shift_cost, shift_cost.
  set (k := shift_break n).
  assert (Hd : time_of ((b + 1) mod 24) 0 - time_of a 0 =
               ((b + 1) mod 24 - a) * 3600000000) by (unfold time_of; lia).
  rewrite Hd.
  destruct (Qeq_bool rate 0) eqn:Er.
  - assert (Er0 : (rate == 0)%Q) by (apply Qeq_bool_eq; exact Er).
    destruct (b =? 23); rewrite Er0; ring.
  - assert (Hw : inject_Z (n * 60 - k) = (inject_Z n * 60 - inject_Z k)%Q).
    { unfold Z.sub. rewrite inject_Z_plus, inject_Z_mult, inject_Z_opp. reflexivity. }
    rewrite Hw. rewrite inject_Z_mult.
    destruct (Z.eqb_spec b 23) as [->|Hb23].
    + change ((23 + 1) mod 24) with 0.
      assert (Hn : (inject_Z n == 24 - inject_Z a)%Q).
      { subst n. unfold Z.sub. rewrite !inject_Z_plus, inject_Z_opp. ring. }
      assert (Hz : inject_Z (0 - a) = (- inject_Z a)%Q).
      { rewrite <- inject_Z_opp. reflexivity. }
      rewrite Hn, Hz. field.
    + rewrite Z.mod_small by lia.
      assert (Hn : inject_Z (b + 1 - a) = inject_Z n) by (subst n; f_equal; lia).
      rewrite Hn. field.
Qed.

(** The cost [GET /schedule/{week}] recomputes from a stored generated
    shift equals the shift's [total_cost], except for a shift that ends at
    midnight: there the end (00:00) comes before the start on the same day,
    and the recomputed cost is 24 hours' pay short. *)
Theorem get_schedule_cost_of_generated_shift : forall emps av fd s sh al s',
  generate_schedule emps av fd s = Ok (sh, al) s' ->
  forall x, In x sh -> exists b,
    0 <= b <= 23 /\ end_time x = time_of ((b + 1) mod 24) 0 /\
    (stored_shift_cost (start_time x) (end_time x) (break_minutes x) (shift_hourly_rate x) ==
     total_cost x - (if b =? 23 then 24 * shift_hourly_rate x else 0))%Q.
Proof.
  intros emps av fd s sh al s' E x Hin.
  destruct (generate_shift_shape _ _ _ _ _ _ _ E) as (_ & _ & _ & _ & _ & Hx).
  destruct (Hx x Hin) as (e & d & a & b & _ & _ & _ & Ha & Hab & Hb & _ & Hr & _ & Hst & Hen & Hbr & Hco).
  exists b. split; [lia|]. split; [exact Hen|].
  rewrite Hst, Hen, Hbr, Hco, Hr. apply stored_shift_cost_hours; lia.
Qed.

Lemma get_schedule_cost_of_generated_shift_witness :
  generate_schedule [emp_a] [slot_day1 "a"] None sample_gen = Ok (sample_shifts, sample_alerts) (state_of sample_run) /\
  forall x, In x sample_shifts -> exists b,
    0 <= b <= 23 /\ end_time x = time_of ((b + 1) mod 24) 0 /\
    (stored_shift_cost (start_time x) (end_time x) (break_minutes x) (shift_hourly_rate x) ==
     total_cost x - (if b =? 23 then 24 * shift_hourly_rate x else 0))%Q.
Proof.
  assert (E : generate_schedule [emp_a] [slot_day1 "a"] None sample_gen =
              Ok (sample_shifts, sample_alerts) (state_of sample_run)) by (vm_compute; reflexivity).
  split; [exact E|]. exact (get_schedule_cost_of_generated_shift _ _ _ _ _ _ _ E).
Defined.
